(** * comic-reader: the OCR pipeline of [src/ocr/run_ocr.py]

    A shallow embedding of the region-to-text pipeline: the text-label filter,
    the crop geometry, the per-region recognition and the orchestrating loop,
    followed by the properties the specification states about them.

    Python values that come out of [json.load] are modelled dynamically
    ([pyval]); Python [float]s are the kernel's binary64 floats, so [int()],
    [round(_, 4)] and the running sum of scores are the operations the
    interpreter performs. *)

From Stdlib Require Import ZArith List String Ascii Bool Lia DecimalString.
From Stdlib Require Import PrimFloat SpecFloat FloatOps.
From Stdlib Require DecimalZ DecimalPos.
Import ListNotations.

Set Warnings "-inexact-float,-register-all".

Open Scope string_scope.
Open Scope list_scope.
Open Scope Z_scope.

(* ================================================================= *)
(** * Python values, exceptions *)

(** The exceptions the pipeline can meet.  [Failure] stands for any other
    subclass of [Exception] raised by a collaborator (file system, image
    decoder, model loader); its argument is [str(e)]. *)
Inductive exn : Type :=
| KeyError (key : string)
| TypeError
| ValueError
| OverflowError
| AttributeError
| Failure (msg : string).

(** A computation either returns a value or raises. *)
Inductive result (A : Type) : Type :=
| Ok (a : A)
| Raise (e : exn).
Arguments Ok {A} a.
Arguments Raise {A} e.

Definition rbind {A B : Type} (r : result A) (k : A -> result B) : result B :=
  match r with
  | Ok a => k a
  | Raise e => Raise e
  end.

Declare Scope result_scope.
Delimit Scope result_scope with result.
Notation "x <- r ;; k" := (rbind r (fun x => k))
  (at level 100, r at next level, right associativity) : result_scope.

(** What [json.load] returns: [None], [bool], [int], [float], [str], [list]
    and [dict] with string keys.  A dict is an association list read from the
    front. *)
Inductive pyval : Type :=
| PyNone
| PyBool (b : bool)
| PyInt (z : Z)
| PyFloat (f : float)
| PyStr (s : string)
| PyList (l : list pyval)
| PyDict (d : list (string * pyval)).

Fixpoint dict_lookup (k : string) (d : list (string * pyval)) : option pyval :=
  match d with
  | [] => None
  | (k', v) :: rest => if String.eqb k k' then Some v else dict_lookup k rest
  end.

(** [v.get(k, default)]: only a dict has the method. *)
Definition py_get (v : pyval) (k : string) (default : pyval) : result pyval :=
  match v with
  | PyDict d =>
      Ok (match dict_lookup k d with Some x => x | None => default end)
  | _ => Raise AttributeError
  end.

(** [v[k]] for a string key [k]: a missing key is a [KeyError]; every other
    kind of value refuses a string subscript with a [TypeError]. *)
Definition py_getitem (v : pyval) (k : string) : result pyval :=
  match v with
  | PyDict d =>
      match dict_lookup k d with
      | Some x => Ok x
      | None => Raise (KeyError k)
      end
  | _ => Raise TypeError
  end.

(** The items a [for] loop draws from a value: the elements of a list, the
    characters of a string, the keys of a dict. *)
Definition py_iter (v : pyval) : result (list pyval) :=
  match v with
  | PyList l => Ok l
  | PyStr s => Ok (map (fun c => PyStr (String c EmptyString)) (list_ascii_of_string s))
  | PyDict d => Ok (map PyStr (nodup string_dec (map fst d)))
  | _ => Raise TypeError
  end.

(* ================================================================= *)
(** * Floats and integers *)

(** [float(n)] for an integer [n], rounded to nearest even. *)
Definition float_of_Z (z : Z) : float :=
  SF2Prim (binary_normalize prec emax z 0 false).

(** [v == n] for an integer literal [n] ([True == 1] and [1.0 == 1] hold in
    Python).  The float case converts [n], which is exact below [2^53]; the
    pipeline only compares with 1 and 2. *)
Definition py_eq_int (v : pyval) (n : Z) : bool :=
  match v with
  | PyInt z => z =? n
  | PyBool b => (if b then 1 else 0) =? n
  | PyFloat f => PrimFloat.eqb f (float_of_Z n)
  | _ => false
  end.

(** [int(f)] on a float truncates toward zero; NaN and the infinities raise. *)
Definition int_of_float (f : float) : result Z :=
  match Prim2SF f with
  | S754_nan => Raise ValueError
  | S754_infinity _ => Raise OverflowError
  | S754_zero _ => Ok 0
  | S754_finite s m e => Ok (cond_Zopp s (Z.shiftl (Z.pos m) e))
  end.

(** [int(s)] on an ASCII string: surrounding white space, an optional sign,
    decimal digits with single underscores between them, at most 4300 digits
    (the interpreter's default limit). *)
Definition is_space (c : ascii) : bool :=
  let n := nat_of_ascii c in
  (Nat.leb 9 n && Nat.leb n 13) || Nat.eqb n 32.

Definition is_digit (c : ascii) : bool :=
  let n := nat_of_ascii c in Nat.leb 48 n && Nat.leb n 57.

Fixpoint drop_spaces (s : list ascii) : list ascii :=
  match s with
  | c :: rest => if is_space c then drop_spaces rest else s
  | [] => []
  end.

Definition strip (s : list ascii) : list ascii :=
  rev (drop_spaces (rev (drop_spaces s))).

Fixpoint digits_value (acc : Z) (after_digit : bool) (s : list ascii) : option Z :=
  match s with
  | [] => if after_digit then Some acc else None
  | c :: rest =>
      if is_digit c
      then digits_value (10 * acc + Z.of_nat (nat_of_ascii c - 48)) true rest
      else if Ascii.eqb c "_" && after_digit
           then digits_value acc false rest
           else None
  end.

Definition int_of_str (s : string) : option Z :=
  let body := strip (list_ascii_of_string s) in
  let '(neg, ds) :=
    match body with
    | "-"%char :: ds => (true, ds)
    | "+"%char :: ds => (false, ds)
    | _ => (false, body)
    end in
  if Nat.leb (List.length (filter is_digit ds)) 4300
  then option_map (cond_Zopp neg) (digits_value 0 false ds)
  else None.

(** The built-in [int(v)]. *)
Definition py_int (v : pyval) : result Z :=
  match v with
  | PyInt z => Ok z
  | PyBool b => Ok (if b then 1 else 0)
  | PyFloat f => int_of_float f
  | PyStr s =>
      match int_of_str s with
      | Some z => Ok z
      | None => Raise ValueError
      end
  | PyNone | PyList _ | PyDict _ => Raise TypeError
  end.

(** [round(x, 4)]: the exact value of [x] is rounded half-to-even to four
    decimals, and the decimal obtained is read back as the nearest float; NaN,
    infinities and zeros round to themselves. *)
Definition round_half_even (n d : Z) : Z :=
  let q := n / d in
  match 2 * (n mod d) ?= d with
  | Lt => q
  | Gt => q + 1
  | Eq => if Z.even q then q else q + 1
  end.

Definition scaled4 (m : positive) (e : Z) : Z :=
  if 0 <=? e then Z.pos m * 2 ^ e * 10000
  else round_half_even (Z.pos m * 10000) (2 ^ (- e)).

Definition round4 (x : float) : float :=
  match Prim2SF x with
  | S754_finite s m e =>
      match scaled4 m e with
      | Z.pos n =>
          SF2Prim (SFdiv prec emax (S754_finite s n 0) (S754_finite false 10000 0))
      | _ => if s then neg_zero else zero
      end
  | _ => x
  end.

(* ================================================================= *)
(** * Geometry: [crop_region] *)

(** A page image, as far as the pipeline looks at it: [image.size]. *)
Record image : Type := { width : Z; height : Z }.

(** The result of [image.crop((x1, y1, x2, y2))]: the page and the box cut
    out of it. *)
Record crop : Type :=
  { crop_source : image; crop_x1 : Z; crop_y1 : Z; crop_x2 : Z; crop_y2 : Z }.

(** Lines 41-48 of [crop_region]: the four keys are read, then each is cast
    with [int] and clamped to the image bounds. *)
Definition clamp_bbox (img : image) (bbox : pyval) : result (Z * Z * Z * Z) :=
  (x1 <- py_getitem bbox "x1" ;;
   y1 <- py_getitem bbox "y1" ;;
   x2 <- py_getitem bbox "x2" ;;
   y2 <- py_getitem bbox "y2" ;;
   x1 <- py_int x1 ;;
   y1 <- py_int y1 ;;
   x2 <- py_int x2 ;;
   y2 <- py_int y2 ;;
   Ok (Z.max 0 x1, Z.max 0 y1, Z.min (width img) x2, Z.min (height img) y2))%result.

(** Lines 50-56: the two validity checks on a clamped box. *)
Definition rejected (x1 y1 x2 y2 : Z) : bool :=
  ((x2 <=? x1) || (y2 <=? y1)) || ((x2 - x1 <? 20) || (y2 - y1 <? 20)).

(** [crop_region(image, bbox)]; [None] is the rejection. *)
Definition crop_region (img : image) (bbox : pyval) : result (option crop) :=
  (box <- clamp_bbox img bbox ;;
   let '(x1, y1, x2, y2) := box in
   if (x2 <=? x1) || (y2 <=? y1) then Ok None
   else if (x2 - x1 <? 20) || (y2 - y1 <? 20) then Ok None
   else Ok (Some {| crop_source := img;
                    crop_x1 := x1; crop_y1 := y1; crop_x2 := x2; crop_y2 := y2 |}))%result.

(* ================================================================= *)
(** * Filtering: [filter_text_regions] *)

(** [x in [1, 2]]. *)
Definition in_1_2 (x : pyval) : bool := py_eq_int x 1 || py_eq_int x 2.

(** The list comprehension: every item is asked for its [label_id], so the
    first item without a [get] method raises. *)
Fixpoint text_regions_of (items : list pyval) : result (list pyval) :=
  match items with
  | [] => Ok []
  | det :: rest =>
      (label_id <- py_get det "label_id" PyNone ;;
       kept <- text_regions_of rest ;;
       Ok (if in_1_2 label_id then det :: kept else kept))%result
  end.

Definition filter_text_regions (bubble_data : pyval) : result (list pyval) :=
  (detections <- py_get bubble_data "detections" (PyList []) ;;
   items <- py_iter detections ;;
   text_regions_of items)%result.

(* ================================================================= *)
(** * Recognition results *)

(** One entry of [text_lines]. *)
Record ocr_line : Type := { text : string; confidence : float }.

(** The dict [run_ocr_on_crop] returns; [error = None] is the absent key. *)
Record ocr_result : Type :=
  { text_lines : list ocr_line;
    full_text : string;
    avg_confidence : float;
    error : option string }.

(** What [ocr.predict(crop_array)] hands back, at the type the recognizer
    documents: a list with one page result per input image.  [EmptyPage] is a
    falsy first element ([None] or an empty dict); [Page] is a non-empty dict
    whose [rec_texts] and [rec_scores] keys may be absent.  An empty list also
    stands for a falsy [result]. *)
Inductive ocr_page : Type :=
| EmptyPage
| Page (rec_texts : option (list string)) (rec_scores : option (list float)).

(** The behaviour of the [try] block of [run_ocr_on_crop] on one crop:
    [Raises msg] is an exception [e] with [str(e) = msg] raised anywhere in
    it. *)
Inductive predict_outcome : Type :=
| Raises (msg : string)
| Returns (result : list ocr_page).

Definition newline : string := String (ascii_of_nat 10) EmptyString.

(** The [for text, score in zip(rec_texts, rec_scores)] loop with its two
    accumulators. *)
Fixpoint collect_lines (pairs : list (string * float))
    (text_lines : list ocr_line) (total_confidence : float)
  : list ocr_line * float :=
  match pairs with
  | [] => (text_lines, total_confidence)
  | (text, score) :: rest =>
      collect_lines rest
        (text_lines ++ [{| text := text; confidence := round4 score |}])
        (total_confidence + score)%float
  end.

Definition no_text_detected : ocr_result :=
  {| text_lines := []; full_text := ""; avg_confidence := 0%float;
     error := Some "No text detected" |}.

Definition ocr_failed (msg : string) : ocr_result :=
  {| text_lines := []; full_text := ""; avg_confidence := 0%float;
     error := Some ("OCR failed: " ++ msg)%string |}.

Definition invalid_crop_region : ocr_result :=
  {| text_lines := []; full_text := ""; avg_confidence := 0%float;
     error := Some "Invalid crop region" |}.

(** Lines 75-117 of [run_ocr_on_crop]: from the outcome of [predict] to the
    returned dict. *)
Definition ocr_result_of (outcome : predict_outcome) : ocr_result :=
  match outcome with
  | Raises msg => ocr_failed msg
  | Returns [] => no_text_detected
  | Returns (EmptyPage :: _) => no_text_detected
  | Returns (Page texts scores :: _) =>
      let rec_texts := match texts with Some l => l | None => [] end in
      let rec_scores := match scores with Some l => l | None => [] end in
      let '(text_lines, total_confidence) :=
        collect_lines (combine rec_texts rec_scores) [] 0%float in
      let avg_confidence :=
        match text_lines with
        | [] => 0%float
        | _ :: _ => (total_confidence / float_of_Z (Z.of_nat (List.length text_lines)))%float
        end in
      {| text_lines := text_lines;
         full_text := String.concat newline (map text text_lines);
         avg_confidence := round4 avg_confidence;
         error := None |}
  end.

(* ================================================================= *)
(** * The output document and the observable world *)

(** One element of the [detections] list of the output: the four fields
    copied from the detection, and its OCR result. *)
Record result_entry : Type :=
  { label : pyval;
    label_id : pyval;
    det_confidence : pyval;
    bbox : pyval;
    ocr_result_field : ocr_result }.

Record image_info : Type :=
  { path : string; info_width : Z; info_height : Z }.

Record ocr_config : Type :=
  { lang : string; model : string; version : string;
    confidence_threshold : float }.

(** The dict [process_image] returns. *)
Record document : Type :=
  { image_info_field : image_info;
    detections : list result_entry;
    ocr_config_field : ocr_config;
    source_bubble_file : string;
    processed_at : string }.

(** The lines the pipeline prints, one constructor per message: [Banner]
    stands for the three lines of the banner, [Success] for the five of the
    summary, [RunError] for the error line and the traceback. *)
Inductive event : Type :=
| LoadingImage (image_path : string)
| LoadingBubbles (bubble_json_path : string)
| FoundTextRegions (n : nat)
| InitializingOcr (lang : string)
| ProcessingRegion (idx total : nat)
| SkippedInvalidCrop
| RegionError (msg : string)
| LowConfidence (avg : float)
| RegionOk (n_lines : nat) (avg : float)
| Banner
| SavingResults (output_path : string)
| Success (total with_text : nat)
| RunError (e : exn).

(** What a file opened for writing holds when the [with] block of [main] is
    left: the JSON text of the document, or only a prefix of it when
    [json.dump] raised on the way. *)
Inductive file_content : Type :=
| Complete (doc : document)
| Truncated (doc : document).

(** What lines 269-270 of [main] do with a path and a document: [open] and
    [json.dump] both return; [open] raises, and no file is created or
    changed (a directory that does not exist, a path that may not be
    written); or [json.dump] raises after [open] created or emptied the file
    (a string the encoding refuses, a full disk). *)
Inductive write_outcome : Type :=
| Written
| OpenRaises (e : exn)
| DumpRaises (e : exn).

(** What a run leaves behind: the crops handed to the recognizer, the lines
    printed and the files written, each in order of occurrence.  The standard
    output is taken to accept every line. *)
Record world : Type :=
  { ocr_calls : list crop;
    stdout : list event;
    files : list (string * file_content) }.

(** Computations that read and extend the world and may raise. *)
Definition M (A : Type) : Type := world -> result A * world.

Definition ret {A : Type} (a : A) : M A := fun w => (Ok a, w).

Definition bind {A B : Type} (c : M A) (k : A -> M B) : M B :=
  fun w =>
    match c w with
    | (Ok a, w') => k a w'
    | (Raise e, w') => (Raise e, w')
    end.

Definition lift {A : Type} (r : result A) : M A := fun w => (r, w).

Definition print (e : event) : M unit :=
  fun w => (Ok tt, {| ocr_calls := ocr_calls w;
                      stdout := stdout w ++ [e];
                      files := files w |}).

(** Entering the [try] block of [run_ocr_on_crop] with crop [c]. *)
Definition called_with (c : crop) : M unit :=
  fun w => (Ok tt, {| ocr_calls := ocr_calls w ++ [c];
                      stdout := stdout w;
                      files := files w |}).

(** [json.dump] into the file opened at [output_path] (lines 269-270), with
    the outcome the file system gives it. *)
Definition write_file (outcome : write_outcome) (output_path : string)
    (doc : document) : M unit :=
  fun w =>
    match outcome with
    | Written =>
        (Ok tt, {| ocr_calls := ocr_calls w;
                   stdout := stdout w;
                   files := files w ++ [(output_path, Complete doc)] |})
    | OpenRaises e => (Raise e, w)
    | DumpRaises e =>
        (Raise e, {| ocr_calls := ocr_calls w;
                     stdout := stdout w;
                     files := files w ++ [(output_path, Truncated doc)] |})
    end.

Declare Scope pipeline_scope.
Delimit Scope pipeline_scope with M.
Notation "x <- c ;; k" := (bind c (fun x => k))
  (at level 100, c at next level, right associativity) : pipeline_scope.
Notation "c ;; k" := (bind c (fun _ => k))
  (at level 100, right associativity) : pipeline_scope.

(** The progress line printed after a recognition (lines 177-182):
    [confidence_threshold] is read here and nowhere else in the loop. *)
Definition report (confidence_threshold : float) (r : ocr_result) : event :=
  match error r with
  | Some (String c msg) => RegionError (String c msg)
  | Some EmptyString | None =>
      if (avg_confidence r <? confidence_threshold)%float
      then LowConfidence (avg_confidence r)
      else RegionOk (List.length (text_lines r)) (avg_confidence r)
  end.

(* ================================================================= *)
(** * The orchestrator: [process_image] and [main] *)

Section Pipeline.

(** The collaborators of the pipeline.  [OcrState] is whatever the
    recognizer keeps between calls; [predict] may depend on it and change
    it, so the recognizer is free to behave differently on every call. *)
Variable OcrState : Type.
Variable image_open : string -> result image.
Variable load_bubble_json : string -> result pyval.
Variable PaddleOCR : string -> result OcrState.
Variable predict : OcrState -> crop -> predict_outcome * OcrState.
Variable utc_now : string.

(** The file system [main] writes to: what opening a path and dumping a
    document into it does. *)
Variable json_dump : string -> document -> write_outcome.

(** [run_ocr_on_crop(ocr, crop)]: never raises. *)
Definition run_ocr_on_crop (ocr : OcrState) (c : crop)
  : M (ocr_result * OcrState) :=
  (called_with c ;;
   let '(outcome, ocr') := predict ocr c in
   ret (ocr_result_of outcome, ocr'))%M.

(** The body of the [for] loop of [process_image] (lines 161-192), for the
    detection at position [idx]. *)
Definition process_region (img : image) (threshold : float)
    (total idx : nat) (detection : pyval) (ocr : OcrState)
  : M (result_entry * OcrState) :=
  (print (ProcessingRegion idx total) ;;
   bbox <- lift (py_getitem detection "bbox") ;;
   crop <- lift (crop_region img bbox) ;;
   r <- match crop with
        | None =>
            print SkippedInvalidCrop ;;
            ret (invalid_crop_region, ocr)
        | Some c =>
            r <- run_ocr_on_crop ocr c ;;
            print (report threshold (fst r)) ;;
            ret r
        end ;;
   label <- lift (py_getitem detection "label") ;;
   label_id <- lift (py_getitem detection "label_id") ;;
   confidence <- lift (py_getitem detection "confidence") ;;
   ret ({| label := label;
           label_id := label_id;
           det_confidence := confidence;
           bbox := bbox;
           ocr_result_field := fst r |}, snd r))%M.

(** The [for] loop: [results] is the list appended to, [idx] counts from 1. *)
Fixpoint process_regions (img : image) (threshold : float) (total : nat)
    (regions : list pyval) (idx : nat) (ocr : OcrState)
    (results : list result_entry) : M (list result_entry) :=
  match regions with
  | [] => ret results
  | detection :: rest =>
      (r <- process_region img threshold total idx detection ocr ;;
       process_regions img threshold total rest (S idx) (snd r)
         (results ++ [fst r]))%M
  end.

Definition process_image (image_path bubble_json_path lang : string)
    (threshold : float) : M document :=
  (print (LoadingImage image_path) ;;
   img <- lift (image_open image_path) ;;
   print (LoadingBubbles bubble_json_path) ;;
   bubble_data <- lift (load_bubble_json bubble_json_path) ;;
   text_regions <- lift (filter_text_regions bubble_data) ;;
   print (FoundTextRegions (List.length text_regions)) ;;
   print (InitializingOcr lang) ;;
   ocr <- lift (PaddleOCR lang) ;;
   results <- process_regions img threshold (List.length text_regions)
                text_regions 1%nat ocr [] ;;
   ret {| image_info_field :=
            {| path := image_path;
               info_width := width img;
               info_height := height img |};
          detections := results;
          ocr_config_field :=
            {| lang := lang; model := "paddleocr"; version := "3.3.2";
               confidence_threshold := threshold |};
          source_bubble_file := bubble_json_path;
          processed_at := utc_now |})%M.

(** The number of entries whose [text_lines] is not empty. *)
Definition with_text (entries : list result_entry) : nat :=
  List.length
    (filter (fun d => match text_lines (ocr_result_field d) with
                      | [] => false
                      | _ :: _ => true
                      end) entries).

(** [main()], from the banner on; [output_path] is the path lines 248-252
    settle on.  The value is the exit status.  The [except] clause catches
    what [process_image] raises and what the write raises alike. *)
Definition main (image_path bubble_json_path output_path lang : string)
    (threshold : float) : world -> Z * world :=
  fun w =>
    let attempt :=
      (result <- process_image image_path bubble_json_path lang threshold ;;
       print (SavingResults output_path) ;;
       write_file (json_dump output_path result) output_path result ;;
       let total_detections := List.length (detections result) in
       print (Success total_detections (with_text (detections result))))%M in
    match attempt (snd (print Banner w)) with
    | (Ok _, w') => (0, w')
    | (Raise e, w') => (1, snd (print (RunError e) w'))
    end.

(** ** Vocabulary of the properties *)

(** The loop body finds everything it reads from [detection]: the [bbox]
    with four coordinates [int] accepts, and the three copied keys. *)
Definition region_ok (img : image) (detection : pyval) : bool :=
  match (bbox <- py_getitem detection "bbox" ;;
         _ <- crop_region img bbox ;;
         _ <- py_getitem detection "label" ;;
         _ <- py_getitem detection "label_id" ;;
         py_getitem detection "confidence")%result with
  | Ok _ => true
  | Raise _ => false
  end.

(** The crop of a detection, when [crop_region] produces one. *)
Definition crop_of (img : image) (detection : pyval) : option crop :=
  match (bbox <- py_getitem detection "bbox" ;; crop_region img bbox)%result with
  | Ok (Some c) => Some c
  | _ => None
  end.

(** The crops of a list of detections, in order, rejected boxes left out. *)
Fixpoint crops_of (img : image) (regions : list pyval) : list crop :=
  match regions with
  | [] => []
  | detection :: rest =>
      match crop_of img detection with
      | Some c => c :: crops_of img rest
      | None => crops_of img rest
      end
  end.

(** [entry] is the output record of [detection]: its four fields are the
    detection's own, and its OCR result is either the rejection record (no
    crop) or what some call of the recognizer on the detection's crop gave. *)
Definition entry_of (img : image) (detection : pyval) (entry : result_entry)
  : Prop :=
  py_getitem detection "label" = Ok (label entry) /\
  py_getitem detection "label_id" = Ok (label_id entry) /\
  py_getitem detection "confidence" = Ok (det_confidence entry) /\
  py_getitem detection "bbox" = Ok (bbox entry) /\
  ((crop_region img (bbox entry) = Ok None /\
    ocr_result_field entry = invalid_crop_region)
   \/
   (exists c ocr,
      crop_region img (bbox entry) = Ok (Some c) /\
      ocr_result_field entry = ocr_result_of (fst (predict ocr c)))).

End Pipeline.

Arguments run_ocr_on_crop {OcrState} predict ocr c.
Arguments process_region {OcrState} predict img threshold total idx detection ocr.
Arguments process_regions {OcrState} predict img threshold total regions idx ocr results.
Arguments process_image {OcrState} image_open load_bubble_json PaddleOCR predict utc_now
  image_path bubble_json_path lang threshold.
Arguments main {OcrState} image_open load_bubble_json PaddleOCR predict utc_now
  json_dump image_path bubble_json_path output_path lang threshold.
Arguments entry_of {OcrState} predict img detection entry.

(* ================================================================= *)
(** * The data model of the specification *)

(** A JSON number that is finite. *)
Definition is_number (v : pyval) : bool :=
  match v with
  | PyInt _ => true
  | PyFloat f =>
      match Prim2SF f with
      | S754_nan | S754_infinity _ => false
      | S754_zero _ | S754_finite _ _ _ => true
      end
  | _ => false
  end.

Definition has_key (d : list (string * pyval)) (k : string) : bool :=
  match dict_lookup k d with
  | Some _ => true
  | None => false
  end.

Definition has_number (d : list (string * pyval)) (k : string) : bool :=
  match dict_lookup k d with
  | Some v => is_number v
  | None => false
  end.

(** [bbox:{x1,y1,x2,y2}] with four finite numbers. *)
Definition well_formed_bbox (bbox : pyval) : bool :=
  match bbox with
  | PyDict d =>
      has_number d "x1" && has_number d "y1" &&
      has_number d "x2" && has_number d "y2"
  | _ => false
  end.

(** A Detection record: [{label, label_id, confidence, bbox}]. *)
Definition well_formed_detection (detection : pyval) : bool :=
  match detection with
  | PyDict d =>
      match dict_lookup "bbox" d with
      | Some b => well_formed_bbox b
      | None => false
      end
      && has_key d "label" && has_key d "label_id" && has_key d "confidence"
  | _ => false
  end.

(** The [label_id] of a detection record is 1 or 2. *)
Definition text_label (detection : pyval) : bool :=
  match detection with
  | PyDict d =>
      match dict_lookup "label_id" d with
      | Some v => in_1_2 v
      | None => false
      end
  | _ => false
  end.

Definition is_dict (v : pyval) : bool :=
  match v with
  | PyDict _ => true
  | _ => false
  end.

(** [math.floor], [math.ceil] and truncation toward zero on a number. *)
Definition floor_of (v : pyval) : Z :=
  match v with
  | PyInt z => z
  | PyFloat f =>
      match Prim2SF f with
      | S754_finite s m e =>
          if 0 <=? e then cond_Zopp s (Z.pos m * 2 ^ e)
          else cond_Zopp s (Z.pos m) / 2 ^ (- e)
      | _ => 0
      end
  | _ => 0
  end.

Definition ceil_of (v : pyval) : Z :=
  match v with
  | PyInt z => z
  | PyFloat f =>
      match Prim2SF f with
      | S754_finite s m e =>
          if 0 <=? e then cond_Zopp s (Z.pos m * 2 ^ e)
          else - (cond_Zopp (negb s) (Z.pos m) / 2 ^ (- e))
      | _ => 0
      end
  | _ => 0
  end.

Definition trunc_of (v : pyval) : Z :=
  match v with
  | PyInt z => z
  | PyFloat f =>
      match Prim2SF f with
      | S754_finite s m e =>
          if 0 <=? e then cond_Zopp s (Z.pos m * 2 ^ e)
          else Z.quot (cond_Zopp s (Z.pos m)) (2 ^ (- e))
      | _ => 0
      end
  | _ => 0
  end.

(** The clamp as the specification words it: floor on the upper-left corner,
    ceiling on the lower-right one. *)
Definition spec_clamp (img : image) (x1 y1 x2 y2 : pyval) : Z * Z * Z * Z :=
  (Z.max 0 (floor_of x1), Z.max 0 (floor_of y1),
   Z.min (width img) (ceil_of x2), Z.min (height img) (ceil_of y2)).

(** The (text, score) pairs the zip loop of [run_ocr_on_crop] goes through
    on a page record. *)
Definition lines_of (texts : option (list string)) (scores : option (list float))
  : list (string * float) :=
  combine (match texts with Some l => l | None => [] end)
          (match scores with Some l => l | None => [] end).

(** The arithmetic mean of a list of floats, summed from the left. *)
Definition mean (xs : list float) : float :=
  (fold_left PrimFloat.add xs 0 / float_of_Z (Z.of_nat (List.length xs)))%float.

(** The [detections] sequence of a run, or the exception it ended with. *)
Definition detections_of (r : result document) : result (list result_entry) :=
  match r with
  | Ok doc => Ok (detections doc)
  | Raise e => Raise e
  end.

(** The loop can read every text region of the document. *)
Definition readable (img : image) (bubble_data : pyval) : bool :=
  match filter_text_regions bubble_data with
  | Ok regions => forallb (region_ok img) regions
  | Raise _ => false
  end.

(** The invariant of a RegionOcrResult. *)
Definition ocr_invariant (r : ocr_result) : Prop :=
  (error r <> None -> text_lines r = [] /\ avg_confidence r = 0%float) /\
  ~ (error r = None /\ text_lines r = [] /\ avg_confidence r <> 0%float).

(* ================================================================= *)
(** * A page to run the pipeline on *)

Module Demo.

Definition bbox_of (x1 y1 x2 y2 : pyval) : pyval :=
  PyDict [("x1", x1); ("y1", y1); ("x2", x2); ("y2", y2)].

Definition detection (label : string) (label_id : Z) (confidence : float)
    (bbox : pyval) : pyval :=
  PyDict [("label", PyStr label); ("label_id", PyInt label_id);
          ("confidence", PyFloat confidence); ("bbox", bbox)].

Definition page : image := {| width := 800; height := 600 |}.

(** Four detections on an 800x600 page: free text, a bubble, text in a
    bubble, and a text box 19 pixels wide. *)
Definition free_text : pyval :=
  detection "text_free" 2 0.9
    (bbox_of (PyFloat 10.4) (PyFloat 10.25) (PyFloat 200.5) (PyFloat 50.75)).
Definition bubble : pyval :=
  detection "bubble" 0 0.95 (bbox_of (PyInt 300) (PyInt 300) (PyInt 500) (PyInt 500)).
Definition bubble_text : pyval :=
  detection "text_bubble" 1 0.8
    (bbox_of (PyFloat 310.5) (PyFloat 320.5) (PyFloat 480.5) (PyFloat 470.5)).
Definition sliver_box : pyval :=
  bbox_of (PyInt 781) (PyInt 0) (PyInt 900) (PyInt 25).
Definition sliver : pyval := detection "text_bubble" 1 0.7 sliver_box.

Definition bubbles : pyval :=
  PyDict [("image_info", PyDict [("path", PyStr "page.png");
                                 ("width", PyInt 800); ("height", PyInt 600)]);
          ("detections", PyList [free_text; bubble; bubble_text; sliver]);
          ("model", PyStr "ogkalu/comic-text-and-bubble-detector");
          ("threshold", PyFloat 0.3)].

(** A recognizer that reads three lines on its first call and fails on every
    later one; its state counts the calls. *)
Definition predict (calls : nat) (c : crop) : predict_outcome * nat :=
  (match calls with
   | O => Returns [Page (Some ["A"; "B"; "C"]) (Some [0.9; 0.7; 0.5]%float)]
   | S _ => Raises "out of memory"
   end, S calls).

Definition image_open (p : string) : result image := Ok page.
Definition load_bubble_json (p : string) : result pyval := Ok bubbles.
Definition PaddleOCR (lang : string) : result nat := Ok O.
Definition utc_now : string := "2025-01-01T00:00:00Z".

Definition start : world := {| ocr_calls := []; stdout := []; files := [] |}.

(** [free_text] again, its [label] key gone, between two readable text
    detections. *)
Definition free_text_without_label : pyval :=
  PyDict [("label_id", PyInt 2); ("confidence", PyFloat 0.9);
          ("bbox", bbox_of (PyFloat 10.4) (PyFloat 10.25) (PyFloat 200.5)
                     (PyFloat 50.75))].
Definition unlabelled : pyval :=
  PyDict [("detections",
           PyList [free_text; bubble; free_text_without_label; sliver])].

(** A recognizer that finds no line: a page record with empty lists. *)
Definition silent (calls : nat) (c : crop) : predict_outcome * nat :=
  (Returns [Page (Some []) (Some [])], S calls).

(** The crop of [free_text] on the page. *)
Definition free_text_crop : crop :=
  {| crop_source := page;
     crop_x1 := 10; crop_y1 := 10; crop_x2 := 200; crop_y2 := 50 |}.

(** Three documents that are not detection documents: no [detections] key;
    records without [label_id]; a text record without [bbox]. *)
Definition no_detections : pyval :=
  PyDict [("model", PyStr "ogkalu/comic-text-and-bubble-detector")].
Definition no_label_ids : pyval :=
  PyDict [("detections", PyList [PyDict [("bbox", PyStr "?")]; PyDict []])].
Definition no_bbox : pyval :=
  PyDict [("detections",
           PyList [PyDict [("label", PyStr "text_free"); ("label_id", PyInt 2);
                           ("confidence", PyFloat 0.9)]])].

(** A recognizer whose three scores have five decimals. *)
Definition fine_scores (calls : nat) (c : crop) : predict_outcome * nat :=
  (Returns [Page (Some ["A"; "B"; "C"])
              (Some [0.12344; 0.12344; 0.12349]%float)], S calls).

(** A text box that lies to the left of the page. *)
Definition off_page_box : pyval :=
  bbox_of (PyInt (-50)) (PyInt 10) (PyInt (-10)) (PyInt 50).
Definition off_page : pyval := detection "text_free" 2 0.6 off_page_box.

(** Three file systems: one that takes every file, one whose directory
    does not exist, and one that fails while the text is written. *)
Definition json_dump (output_path : string) (doc : document) : write_outcome :=
  Written.
Definition no_directory (output_path : string) (doc : document)
  : write_outcome :=
  OpenRaises (Failure "No such file or directory").
Definition disk_full (output_path : string) (doc : document) : write_outcome :=
  DumpRaises (Failure "No space left on device").

Definition run (threshold : float) : result document * world :=
  process_image image_open load_bubble_json PaddleOCR predict utc_now
    "page.png" "page.json" "chinese_cht" threshold start.

(** [process_image] on a page whose detection file holds [bubble_data]. *)
Definition run_on (bubble_data : pyval) : result document * world :=
  process_image image_open (fun _ => Ok bubble_data) PaddleOCR predict utc_now
    "page.png" "page.json" "chinese_cht" 0.5 start.

(** [main] on such a page, on a file system that takes every file. *)
Definition run_main (bubble_data : pyval) : Z * world :=
  main image_open (fun _ => Ok bubble_data) PaddleOCR predict utc_now
    json_dump "page.png" "page.json" "page-ocr.json" "chinese_cht" 0.5 start.

End Demo.

(* ================================================================= *)
(** * The output document as a Python value *)

(** The dicts of lines 91-94, 105-109 (76-81, 112-117, 168-173 with the
    [error] key), 185-191 and 195-210, as [json.dump] sees them. *)
Definition py_of_line (l : ocr_line) : pyval :=
  PyDict [("text", PyStr (text l)); ("confidence", PyFloat (confidence l))].

Definition py_of_ocr_result (r : ocr_result) : pyval :=
  PyDict ([("text_lines", PyList (map py_of_line (text_lines r)));
           ("full_text", PyStr (full_text r));
           ("avg_confidence", PyFloat (avg_confidence r))]
          ++ match error r with
             | Some msg => [("error", PyStr msg)]
             | None => []
             end).

Definition py_of_entry (entry : result_entry) : pyval :=
  PyDict [("label", label entry);
          ("label_id", label_id entry);
          ("confidence", det_confidence entry);
          ("bbox", bbox entry);
          ("ocr_result", py_of_ocr_result (ocr_result_field entry))].

Definition py_of_document (doc : document) : pyval :=
  PyDict [("image_info",
           PyDict [("path", PyStr (path (image_info_field doc)));
                   ("width", PyInt (info_width (image_info_field doc)));
                   ("height", PyInt (info_height (image_info_field doc)))]);
          ("detections", PyList (map py_of_entry (detections doc)));
          ("ocr_config",
           PyDict [("lang", PyStr (lang (ocr_config_field doc)));
                   ("model", PyStr (model (ocr_config_field doc)));
                   ("version", PyStr (version (ocr_config_field doc)));
                   ("confidence_threshold",
                    PyFloat (confidence_threshold (ocr_config_field doc)))]);
          ("source_bubble_file", PyStr (source_bubble_file doc));
          ("processed_at", PyStr (processed_at doc))].

(* ================================================================= *)
(** * The detector's adapter: [src/bubbleExtractor/extract.py] *)

Definition MODEL_ID : string := "ogkalu/comic-text-and-bubble-detector".

(** The label mapping of the model. *)
Definition LABELS : list (Z * string) :=
  [(0, "bubble"); (1, "text_bubble"); (2, "text_free")].

Fixpoint labels_get (m : list (Z * string)) (k : Z) : option string :=
  match m with
  | [] => None
  | (k', v) :: rest => if k =? k' then Some v else labels_get rest k
  end.

(** [str(n)] on an integer. *)
Definition str_of_int (n : Z) : string := NilZero.string_of_int (Z.to_int n).

(** [LABELS.get(label_id, f"unknown_{label_id}")]. *)
Definition label_of (label_id : Z) : string :=
  match labels_get LABELS label_id with
  | Some name => name
  | None => ("unknown_" ++ str_of_int label_id)%string
  end.

(** [round(x, 2)], as [round4] with two decimals. *)
Definition scaled2 (m : positive) (e : Z) : Z :=
  if 0 <=? e then Z.pos m * 2 ^ e * 100
  else round_half_even (Z.pos m * 100) (2 ^ (- e)).

Definition round2 (x : float) : float :=
  match Prim2SF x with
  | S754_finite s m e =>
      match scaled2 m e with
      | Z.pos n =>
          SF2Prim (SFdiv prec emax (S754_finite s n 0) (S754_finite false 100 0))
      | _ => if s then neg_zero else zero
      end
  | _ => x
  end.

(** What [post_process_object_detection(...)[0]] holds: three sequences read
    in parallel; a box is the list [box.tolist()] gives. *)
Record detector_output : Type :=
  { scores : list float; labels : list Z; boxes : list (list float) }.

(** The record appended for one (score, label, box) triple (lines 60-76). *)
Definition detection_record (score : float) (label_id : Z)
    (x1 y1 x2 y2 : float) : pyval :=
  PyDict [("label", PyStr (label_of label_id));
          ("label_id", PyInt label_id);
          ("confidence", PyFloat (round4 score));
          ("bbox", PyDict [("x1", PyFloat (round2 x1));
                           ("y1", PyFloat (round2 y1));
                           ("x2", PyFloat (round2 x2));
                           ("y2", PyFloat (round2 y2))])].

(** The [for score, label, box in zip(...)] loop: it ends with the shortest
    sequence; a box that does not unpack into four coordinates raises. *)
Fixpoint build_detections (scores : list float) (labels : list Z)
    (boxes : list (list float)) (detections : list pyval)
  : result (list pyval) :=
  match scores, labels, boxes with
  | score :: scores', label :: labels', box :: boxes' =>
      match box with
      | [x1; y1; x2; y2] =>
          build_detections scores' labels' boxes'
            (detections ++ [detection_record score label x1 y1 x2 y2])
      | _ => Raise ValueError
      end
  | _, _, _ => Ok detections
  end.

Section Detector.

(** The collaborators of [detect_regions]: loading the processor and the
    model, opening the image, and lines 45-54 (preprocessing, inference and
    post-processing at a threshold). *)
Variable load_processor : string -> result unit.
Variable load_model : string -> result unit.
Variable image_open : string -> result image.
Variable infer : image -> float -> result detector_output.

(** [detect_regions(image_path, threshold)]. *)
Definition detect_regions (image_path : string) (threshold : float)
  : result pyval :=
  (_ <- load_processor MODEL_ID ;;
   _ <- load_model MODEL_ID ;;
   img <- image_open image_path ;;
   results <- infer img threshold ;;
   detections <- build_detections (scores results) (labels results)
                   (boxes results) [] ;;
   Ok (PyDict [("image_info",
                PyDict [("path", PyStr image_path);
                        ("width", PyInt (width img));
                        ("height", PyInt (height img))]);
               ("detections", PyList detections);
               ("model", PyStr MODEL_ID);
               ("threshold", PyFloat threshold)]))%result.

End Detector.

(** The (score, label, box) triples the loop of [detect_regions] goes
    through. *)
Definition triples (out : detector_output)
  : list (float * (Z * list float)) :=
  combine (scores out) (combine (labels out) (boxes out)).

(** Python's [a[start:stop]] on a sequence of length [n], for a start that is
    not negative: the first index and the number of items selected. *)
Definition slice_extent (n start stop : Z) : Z * Z :=
  let stop' := if stop <? 0 then Z.max 0 (stop + n) else Z.min stop n in
  let start' := Z.min start n in
  (start', Z.max 0 (stop' - start')).

(** Lines 183-195 of [save_cropped_regions], for one detection on an image
    of [h] rows and [w] columns: the three keys are read, the four
    coordinates cast and clamped, and the array is sliced.  The value is the
    slice: first row, number of rows, first column, number of columns. *)
Definition cropped_slice (w h : Z) (det : pyval) : result (Z * Z * Z * Z) :=
  (_ <- py_getitem det "label_id" ;;
   _ <- py_getitem det "confidence" ;;
   bbox <- py_getitem det "bbox" ;;
   x1 <- py_getitem bbox "x1" ;;
   y1 <- py_getitem bbox "y1" ;;
   x2 <- py_getitem bbox "x2" ;;
   y2 <- py_getitem bbox "y2" ;;
   x1 <- py_int x1 ;;
   y1 <- py_int y1 ;;
   x2 <- py_int x2 ;;
   y2 <- py_int y2 ;;
   let x1 := Z.max 0 x1 in
   let y1 := Z.max 0 y1 in
   let x2 := Z.min w x2 in
   let y2 := Z.min h y2 in
   let '(row, rows) := slice_extent h y1 y2 in
   let '(col, cols) := slice_extent w x1 x2 in
   Ok (row, rows, col, cols))%result.

Module DemoDetector.

(** A detector output with three scores and labels and four boxes: free
    text, a bubble, and a label outside the mapping. *)
Definition output : detector_output :=
  {| scores := [0.98765; 0.91; 0.5]%float;
     labels := [2; 0; 7];
     boxes := [[10.126; 10.25; 200.5; 50.755]; [300; 300; 500; 500];
               [0; 0; 30.5; 30.5]; [1; 2; 3; 4]]%float |}.

Definition load (name : string) : result unit := Ok tt.
Definition image_open (p : string) : result image := Ok Demo.page.
Definition infer (img : image) (threshold : float) : result detector_output :=
  Ok output.

Definition document : result pyval :=
  detect_regions load load image_open infer "page.png" 0.3.

End DemoDetector.

(** The first of the four coordinate keys a box lacks. *)
Definition first_missing (d : list (string * pyval)) : option string :=
  find (fun k => negb (has_key d k)) ["x1"; "y1"; "x2"; "y2"].


(** The result of an entry carries an [error] key. *)
Definition has_error (entry : result_entry) : bool :=
  match error (ocr_result_field entry) with
  | Some _ => true
  | None => false
  end.

(** The exception the loop body raises on a detection it cannot read. *)
Definition region_error (img : image) (detection : pyval) : option exn :=
  match (bbox <- py_getitem detection "bbox" ;;
         _ <- crop_region img bbox ;;
         _ <- py_getitem detection "label" ;;
         _ <- py_getitem detection "label_id" ;;
         py_getitem detection "confidence")%result with
  | Ok _ => None
  | Raise e => Some e
  end.

(** The progress lines of a loop over [total] regions, from position [idx]
    on, given the status line of each region. *)
Fixpoint progress (total idx : nat) (statuses : list event) : list event :=
  match statuses with
  | [] => []
  | status :: rest =>
      ProcessingRegion idx total :: status :: progress total (S idx) rest
  end.

(** The lines [process_image] prints before its loop. *)
Definition preamble (image_path bubble_json_path lang : string)
    (n_regions : nat) : list event :=
  [LoadingImage image_path; LoadingBubbles bubble_json_path;
   FoundTextRegions n_regions; InitializingOcr lang].

(* ================================================================= *)
(** * Casting and clamping *)

Lemma shiftl_pos_nonneg (m : positive) (e : Z) : 0 <= Z.shiftl (Z.pos m) e.
Proof. apply Z.shiftl_nonneg. lia. Qed.

Lemma pow2_pos (k : Z) : 0 <= k -> 0 < 2 ^ k.
Proof. intros Hk. apply Z.pow_pos_nonneg; lia. Qed.

(** [int] on a finite number is truncation toward zero. *)
Lemma py_int_number (v : pyval) :
  is_number v = true -> py_int v = Ok (trunc_of v).
Proof.
  destruct v as [ | b | z | f | s | l | d]; simpl; try discriminate.
  - reflexivity.
  - unfold int_of_float.
    destruct (Prim2SF f) as [sg | sg | | sg m e]; try discriminate; intros _.
    + reflexivity.
    + f_equal. destruct (Z.leb_spec 0 e) as [He | He].
      * rewrite Z.shiftl_mul_pow2 by assumption. reflexivity.
      * replace e with (- (- e)) at 1 by lia.
        rewrite Z.shiftl_opp_r, Z.shiftr_div_pow2 by lia.
        assert (Hp : 0 < 2 ^ (- e)) by (apply pow2_pos; lia).
        destruct sg; simpl.
        -- change (Z.neg m) with (- Z.pos m).
           rewrite Z.quot_opp_l by lia.
           rewrite Z.quot_div_nonneg by lia. reflexivity.
        -- rewrite Z.quot_div_nonneg by lia. reflexivity.
Qed.

(** Below zero the cast rounds up and the floor rounds down, and the clamp at
    0 hides the difference. *)
Lemma max0_trunc_floor (v : pyval) :
  Z.max 0 (trunc_of v) = Z.max 0 (floor_of v).
Proof.
  destruct v as [ | b | z | f | s | l | d]; simpl; try reflexivity.
  destruct (Prim2SF f) as [sg | sg | | sg m e]; try reflexivity.
  destruct (Z.leb_spec 0 e) as [He | He]; [reflexivity | ].
  assert (Hp : 0 < 2 ^ (- e)) by (apply pow2_pos; lia).
  destruct sg; simpl.
  - change (Z.neg m) with (- Z.pos m).
    rewrite Z.quot_opp_l by lia.
    rewrite Z.quot_div_nonneg by lia.
    assert (0 <= Z.pos m / 2 ^ (- e)) by (apply Z.div_pos; lia).
    assert (- Z.pos m / 2 ^ (- e) < 0) by (apply Z.div_lt_upper_bound; lia).
    lia.
  - rewrite Z.quot_div_nonneg by lia. reflexivity.
Qed.

Lemma py_getitem_dict (d : list (string * pyval)) (k : string) (v : pyval) :
  dict_lookup k d = Some v -> py_getitem (PyDict d) k = Ok v.
Proof. intros H. simpl. rewrite H. reflexivity. Qed.

(** What lines 41-48 compute on a box of four finite numbers. *)
Lemma clamp_bbox_numbers (img : image) (d : list (string * pyval))
    (x1 y1 x2 y2 : pyval) :
  dict_lookup "x1" d = Some x1 -> dict_lookup "y1" d = Some y1 ->
  dict_lookup "x2" d = Some x2 -> dict_lookup "y2" d = Some y2 ->
  is_number x1 = true -> is_number y1 = true ->
  is_number x2 = true -> is_number y2 = true ->
  clamp_bbox img (PyDict d) =
  Ok (Z.max 0 (trunc_of x1), Z.max 0 (trunc_of y1),
      Z.min (width img) (trunc_of x2), Z.min (height img) (trunc_of y2)).
Proof.
  intros L1 L2 L3 L4 N1 N2 N3 N4. unfold clamp_bbox.
  rewrite (py_getitem_dict _ _ _ L1), (py_getitem_dict _ _ _ L2),
    (py_getitem_dict _ _ _ L3), (py_getitem_dict _ _ _ L4).
  simpl.
  rewrite (py_int_number _ N1), (py_int_number _ N2),
    (py_int_number _ N3), (py_int_number _ N4).
  reflexivity.
Qed.

(** C2 (as amended): on a box of four finite numbers the clamped coordinates
    are [x1' = max(0, floor(x1))], [y1' = max(0, floor(y1))],
    [x2' = min(width, trunc(x2))] and [y2' = min(height, trunc(y2))], where
    [trunc] drops the fraction (rounds toward zero), as [int] does. *)
Theorem clamp_bbox_truncates (img : image) (d : list (string * pyval))
    (x1 y1 x2 y2 : pyval) :
  dict_lookup "x1" d = Some x1 -> dict_lookup "y1" d = Some y1 ->
  dict_lookup "x2" d = Some x2 -> dict_lookup "y2" d = Some y2 ->
  is_number x1 = true -> is_number y1 = true ->
  is_number x2 = true -> is_number y2 = true ->
  clamp_bbox img (PyDict d) =
  Ok (Z.max 0 (floor_of x1), Z.max 0 (floor_of y1),
      Z.min (width img) (trunc_of x2), Z.min (height img) (trunc_of y2)).
Proof.
  intros L1 L2 L3 L4 N1 N2 N3 N4.
  rewrite (clamp_bbox_numbers img d x1 y1 x2 y2) by assumption.
  rewrite (max0_trunc_floor x1), (max0_trunc_floor y1). reflexivity.
Qed.

Lemma clamp_bbox_truncates_witness :
  clamp_bbox Demo.page
    (Demo.bbox_of (PyFloat (-3.5)) (PyFloat 10.25) (PyFloat 200.5) (PyInt 700))
  = Ok (0, 10, 200, 600).
Proof.
  apply (clamp_bbox_truncates Demo.page
           [("x1", PyFloat (-3.5)); ("y1", PyFloat 10.25);
            ("x2", PyFloat 200.5); ("y2", PyInt 700)]
           (PyFloat (-3.5)) (PyFloat 10.25) (PyFloat 200.5) (PyInt 700));
    reflexivity.
Defined.

(** C2 (as stated) fails: on the 800x600 page the box
    (10.4, 10.25, 200.5, 50.75) is clamped to (10, 10, 200, 50), while floor
    and ceiling give (10, 10, 201, 51). *)
Lemma clamp_bbox_is_not_ceiling :
  clamp_bbox Demo.page
    (Demo.bbox_of (PyFloat 10.4) (PyFloat 10.25) (PyFloat 200.5) (PyFloat 50.75))
  = Ok (10, 10, 200, 50) /\
  spec_clamp Demo.page (PyFloat 10.4) (PyFloat 10.25) (PyFloat 200.5) (PyFloat 50.75)
  = (10, 10, 201, 51).
Proof. split; vm_compute; reflexivity. Qed.

(** The two checks of [crop_region], on the clamped box. *)
Lemma crop_region_clamped (img : image) (b : pyval) (x1 y1 x2 y2 : Z) :
  clamp_bbox img b = Ok (x1, y1, x2, y2) ->
  crop_region img b
  = if rejected x1 y1 x2 y2 then Ok None
    else Ok (Some {| crop_source := img; crop_x1 := x1; crop_y1 := y1;
                     crop_x2 := x2; crop_y2 := y2 |}).
Proof.
  intros Hclamp. unfold crop_region, rejected. rewrite Hclamp. simpl.
  destruct ((x2 <=? x1) || (y2 <=? y1)); simpl; [reflexivity | ].
  destruct ((x2 - x1 <? 20) || (y2 - y1 <? 20)); reflexivity.
Qed.

Lemma rejected_spec (x1 y1 x2 y2 : Z) :
  rejected x1 y1 x2 y2 = true <->
  (x2 <= x1 \/ y2 <= y1 \/ x2 - x1 < 20 \/ y2 - y1 < 20).
Proof.
  unfold rejected.
  rewrite !orb_true_iff, !Z.leb_le, !Z.ltb_lt. tauto.
Qed.

(* ================================================================= *)
(** * Well-formed detections, and the filter *)

Lemma has_number_lookup (d : list (string * pyval)) (k : string) :
  has_number d k = true ->
  exists v, dict_lookup k d = Some v /\ is_number v = true.
Proof.
  unfold has_number. destruct (dict_lookup k d) as [v | ]; [ | discriminate].
  intros H. exists v. auto.
Qed.

Lemma has_key_getitem (d : list (string * pyval)) (k : string) :
  has_key d k = true -> exists v, py_getitem (PyDict d) k = Ok v.
Proof.
  unfold has_key. simpl. destruct (dict_lookup k d) as [v | ]; [ | discriminate].
  intros _. exists v. reflexivity.
Qed.

(** A box of four finite numbers is always clamped, and [crop_region]
    answers with a crop or with the rejection. *)
Lemma crop_region_total (img : image) (b : pyval) :
  well_formed_bbox b = true -> exists oc, crop_region img b = Ok oc.
Proof.
  destruct b as [ | | | | | | d]; simpl; try discriminate.
  intros H. apply andb_prop in H. destruct H as [H H4].
  apply andb_prop in H. destruct H as [H H3].
  apply andb_prop in H. destruct H as [H1 H2].
  destruct (has_number_lookup _ _ H1) as (x1 & L1 & N1).
  destruct (has_number_lookup _ _ H2) as (y1 & L2 & N2).
  destruct (has_number_lookup _ _ H3) as (x2 & L3 & N3).
  destruct (has_number_lookup _ _ H4) as (y2 & L4 & N4).
  unfold crop_region.
  rewrite (clamp_bbox_numbers img d x1 y1 x2 y2) by assumption.
  simpl.
  destruct ((_ <=? _) || (_ <=? _)); [eexists; reflexivity | ].
  destruct ((_ <? 20) || (_ <? 20)); eexists; reflexivity.
Qed.

(** The loop body can read every well-formed detection. *)
Lemma well_formed_region_ok (img : image) (det : pyval) :
  well_formed_detection det = true -> region_ok img det = true.
Proof.
  destruct det as [ | | | | | | d]; try discriminate.
  unfold well_formed_detection, region_ok. intros H.
  apply andb_prop in H. destruct H as [H Hc].
  apply andb_prop in H. destruct H as [H Hi].
  apply andb_prop in H. destruct H as [Hb Hl].
  simpl py_getitem at 1.
  destruct (dict_lookup "bbox" d) as [b | ]; [ | discriminate].
  destruct (crop_region_total img b Hb) as (oc & Hcrop).
  destruct (has_key_getitem _ _ Hl) as (lb & Hlb).
  destruct (has_key_getitem _ _ Hi) as (li & Hli).
  destruct (has_key_getitem _ _ Hc) as (cf & Hcf).
  unfold rbind. rewrite Hcrop, Hlb, Hli, Hcf. reflexivity.
Qed.

(** On a list of records the comprehension is a filter on the label. *)
Lemma text_regions_of_records (items : list pyval) :
  Forall (fun det => is_dict det = true) items ->
  text_regions_of items = Ok (filter text_label items).
Proof.
  induction 1 as [ | det rest Hdet _ IH]; [reflexivity | ].
  destruct det as [ | | | | | | d]; try discriminate.
  simpl. rewrite IH. simpl.
  destruct (dict_lookup "label_id" d) as [v | ]; reflexivity.
Qed.

Lemma filter_text_regions_records (d : list (string * pyval))
    (items : list pyval) :
  dict_lookup "detections" d = Some (PyList items) ->
  Forall (fun det => is_dict det = true) items ->
  filter_text_regions (PyDict d) = Ok (filter text_label items).
Proof.
  intros Hd Hitems. unfold filter_text_regions. simpl. rewrite Hd. simpl.
  apply text_regions_of_records. assumption.
Qed.

(** An integer label passes the filter exactly when it is 1 or 2. *)
Lemma in_1_2_int (z : Z) : in_1_2 (PyInt z) = true <-> z = 1 \/ z = 2.
Proof.
  unfold in_1_2. simpl. rewrite orb_true_iff, !Z.eqb_eq. reflexivity.
Qed.

(* ================================================================= *)
(** * Recognition on one crop *)

(** The two accumulators of the zip loop. *)
Lemma collect_lines_spec (pairs : list (string * float)) :
  forall (acc : list ocr_line) (total : float),
  collect_lines pairs acc total
  = (acc ++ map (fun p => {| text := fst p; confidence := round4 (snd p) |}) pairs,
     fold_left PrimFloat.add (map snd pairs) total).
Proof.
  induction pairs as [ | [t sc] rest IH]; intros acc total; simpl.
  - rewrite app_nil_r. reflexivity.
  - rewrite IH, <- app_assoc. reflexivity.
Qed.

(** The result on a non-empty page. *)
Lemma ocr_result_of_page (texts : option (list string))
    (scores : option (list float)) (rest : list ocr_page) :
  ocr_result_of (Returns (Page texts scores :: rest))
  = let lines :=
      map (fun p => {| text := fst p; confidence := round4 (snd p) |})
          (lines_of texts scores) in
    {| text_lines := lines;
       full_text := String.concat newline (map text lines);
       avg_confidence :=
         round4 match lines_of texts scores with
                | [] => 0%float
                | _ :: _ => mean (map snd (lines_of texts scores))
                end;
       error := None |}.
Proof.
  unfold ocr_result_of, lines_of, mean.
  rewrite collect_lines_spec. simpl app.
  destruct (combine _ _) as [ | p ps]; [reflexivity | ].
  cbv zeta. simpl map at 1.
  rewrite !length_map. reflexivity.
Qed.

Lemma round4_zero : round4 0%float = 0%float.
Proof. reflexivity. Qed.

(** Every record the recognition step can return keeps the invariant. *)
Lemma ocr_result_of_invariant (o : predict_outcome) :
  ocr_invariant (ocr_result_of o).
Proof.
  destruct o as [msg | [ | [ | texts scores] rest]].
  - split; simpl; [auto | intros (H & _); discriminate].
  - split; simpl; [auto | intros (H & _); discriminate].
  - split; simpl; [auto | intros (H & _); discriminate].
  - rewrite ocr_result_of_page. cbv zeta.
    split; simpl; [intros H; congruence | ].
    intros (_ & Hnil & Hne). apply Hne.
    destruct (lines_of texts scores); [apply round4_zero | discriminate].
Qed.

Lemma invalid_crop_region_invariant : ocr_invariant invalid_crop_region.
Proof. split; simpl; [auto | intros (H & _); discriminate]. Qed.

(* ================================================================= *)
(** * The loop body and the loop *)

Section Properties.

Variable OcrState : Type.
Variable image_open : string -> result image.
Variable load_bubble_json : string -> result pyval.
Variable PaddleOCR : string -> result OcrState.
Variable predict : OcrState -> crop -> predict_outcome * OcrState.
Variable utc_now : string.

Ltac run_monad :=
  unfold bind, lift, print, ret, called_with, write_file, rbind; simpl.

(** On a detection it can read, the loop body returns the detection's entry,
    calls the recognizer on the detection's crop if there is one, and on
    nothing else. *)
Lemma process_region_ok (img : image) (thr : float) (total idx : nat)
    (det : pyval) (ocr : OcrState) (w : world) :
  region_ok img det = true ->
  exists entry ocr' w',
    process_region predict img thr total idx det ocr w = (Ok (entry, ocr'), w') /\
    entry_of predict img det entry /\
    ocr_calls w' = ocr_calls w ++ crops_of img [det] /\
    files w' = files w.
Proof.
  unfold region_ok, process_region, crops_of, crop_of, entry_of.
  run_monad.
  destruct (py_getitem det "bbox") as [b | e] eqn:Hb; simpl; [ | discriminate].
  destruct (crop_region img b) as [oc | e] eqn:Hc; simpl; [ | discriminate].
  destruct (py_getitem det "label") as [lb | e]; simpl; [ | discriminate].
  destruct (py_getitem det "label_id") as [li | e]; simpl; [ | discriminate].
  destruct (py_getitem det "confidence") as [cf | e]; simpl; [ | discriminate].
  intros _.
  destruct oc as [c | ].
  - unfold run_ocr_on_crop. run_monad.
    destruct (predict ocr c) as [o ocr'] eqn:Hp. simpl.
    eexists; eexists; eexists. split; [reflexivity | ]. simpl.
    repeat split; try reflexivity.
    right. exists c, ocr. rewrite Hp. split; [assumption | reflexivity].
  - eexists; eexists; eexists. split; [reflexivity | ]. simpl.
    repeat split; try reflexivity.
    + left. split; [assumption | reflexivity].
    + rewrite app_nil_r. reflexivity.
Qed.

(** On any other detection the loop body raises. *)
Lemma process_region_raises (img : image) (thr : float) (total idx : nat)
    (det : pyval) (ocr : OcrState) (w : world) :
  region_ok img det = false ->
  exists e w',
    process_region predict img thr total idx det ocr w = (Raise e, w').
Proof.
  unfold region_ok, process_region.
  run_monad.
  destruct (py_getitem det "bbox") as [b | e] eqn:Hb; simpl;
    [ | intros _; eexists; eexists; reflexivity].
  destruct (crop_region img b) as [oc | e] eqn:Hc; simpl;
    [ | intros _; eexists; eexists; reflexivity].
  assert (Hr : exists r w1,
             match oc with
             | Some c =>
                 bind (run_ocr_on_crop predict ocr c)
                   (fun r => bind (print (report thr (fst r))) (fun _ => ret r))
             | None =>
                 bind (print SkippedInvalidCrop)
                   (fun _ => ret (invalid_crop_region, ocr))
             end
               {| ocr_calls := ocr_calls w;
                  stdout := stdout w ++ [ProcessingRegion idx total];
                  files := files w |} = (Ok r, w1)).
  { destruct oc as [c | ]; unfold run_ocr_on_crop; run_monad.
    - destruct (predict ocr c) as [o ocr']. simpl. eexists; eexists; reflexivity.
    - eexists; eexists; reflexivity. }
  destruct Hr as (r & w1 & Hr). unfold bind, print, ret in Hr. rewrite Hr.
  destruct (py_getitem det "label") as [lb | e]; simpl;
    [ | intros _; eexists; eexists; reflexivity].
  destruct (py_getitem det "label_id") as [li | e]; simpl;
    [ | intros _; eexists; eexists; reflexivity].
  destruct (py_getitem det "confidence") as [cf | e]; simpl;
    [ discriminate | intros _; eexists; eexists; reflexivity].
Qed.

(** The loop over detections it can read: one entry per detection, appended
    in order; the recognizer is called on their crops, in order, and on
    nothing else. *)
Lemma process_regions_ok (img : image) (thr : float) (total : nat)
    (regions : list pyval) :
  Forall (fun det => region_ok img det = true) regions ->
  forall (idx : nat) (ocr : OcrState) (results : list result_entry) (w : world),
  exists entries w',
    process_regions predict img thr total regions idx ocr results w
    = (Ok (results ++ entries), w') /\
    Forall2 (entry_of predict img) regions entries /\
    ocr_calls w' = ocr_calls w ++ crops_of img regions /\
    files w' = files w.
Proof.
  induction 1 as [ | det rest Hdet _ IH]; intros idx ocr results w.
  - exists [], w. simpl. unfold ret. rewrite !app_nil_r. auto.
  - destruct (process_region_ok img thr total idx det ocr w Hdet)
      as (entry & ocr' & w1 & Hstep & Hentry & Hcalls & Hfiles).
    destruct (IH (S idx) ocr' (results ++ [entry]) w1)
      as (entries & w2 & Hloop & Hall & Hcalls2 & Hfiles2).
    exists (entry :: entries), w2.
    simpl process_regions. unfold bind. rewrite Hstep. simpl fst; simpl snd.
    rewrite Hloop, <- app_assoc. simpl.
    repeat split.
    + constructor; assumption.
    + rewrite Hcalls2, Hcalls. simpl.
      destruct (crop_of img det); simpl; rewrite <- app_assoc; reflexivity.
    + congruence.
Qed.

(** The loop raises as soon as it meets a detection it cannot read. *)
Lemma process_regions_raises (img : image) (thr : float) (total : nat)
    (regions : list pyval) :
  Exists (fun det => region_ok img det = false) regions ->
  forall (idx : nat) (ocr : OcrState) (results : list result_entry) (w : world),
  exists e w',
    process_regions predict img thr total regions idx ocr results w
    = (Raise e, w').
Proof.
  induction regions as [ | det rest IH]; intros Hex idx ocr results w.
  - inversion Hex.
  - simpl process_regions. unfold bind.
    destruct (region_ok img det) eqn:Hdet.
    + destruct (process_region_ok img thr total idx det ocr w Hdet)
        as (entry & ocr' & w1 & Hstep & _).
      rewrite Hstep. apply IH.
      inversion Hex as [? ? Hbad | ? ? Hlater]; subst; [congruence | assumption].
    + destruct (process_region_raises img thr total idx det ocr w Hdet)
        as (e & w1 & Hstep).
      rewrite Hstep. eexists; eexists; reflexivity.
Qed.

(** A loop that returns has read every detection. *)
Lemma process_regions_returns (img : image) (thr : float) (total : nat)
    (regions : list pyval) (idx : nat) (ocr : OcrState)
    (results out : list result_entry) (w w' : world) :
  process_regions predict img thr total regions idx ocr results w = (Ok out, w') ->
  Forall (fun det => region_ok img det = true) regions.
Proof.
  intros Hrun.
  destruct (Forall_Exists_dec (fun det => region_ok img det = true)
              (fun det => bool_dec (region_ok img det) true) regions)
    as [Hall | Hex]; [assumption | exfalso].
  assert (Hbad : Exists (fun det => region_ok img det = false) regions).
  { apply Exists_exists. apply Exists_exists in Hex.
    destruct Hex as (det & Hin & Hno). exists det. split; [assumption | ].
    destruct (region_ok img det); congruence. }
  destruct (process_regions_raises img thr total regions Hbad idx ocr results w)
    as (e & w1 & Hraise).
  congruence.
Qed.

(** The threshold and the world it starts from leave no mark on what the
    loop body returns, on the recognizer calls it adds, or on the files. *)
Lemma process_region_threshold (img : image) (thr1 thr2 : float)
    (total idx : nat) (det : pyval) (ocr : OcrState) (w1 w2 : world) :
  ocr_calls w1 = ocr_calls w2 -> files w1 = files w2 ->
  fst (process_region predict img thr1 total idx det ocr w1)
  = fst (process_region predict img thr2 total idx det ocr w2) /\
  ocr_calls (snd (process_region predict img thr1 total idx det ocr w1))
  = ocr_calls (snd (process_region predict img thr2 total idx det ocr w2)) /\
  files (snd (process_region predict img thr1 total idx det ocr w1))
  = files (snd (process_region predict img thr2 total idx det ocr w2)).
Proof.
  intros Hcalls Hfiles. unfold process_region. run_monad.
  destruct (py_getitem det "bbox") as [b | e]; simpl; [ | auto].
  destruct (crop_region img b) as [[c | ] | e]; simpl; [ | | auto].
  - unfold run_ocr_on_crop. run_monad.
    destruct (predict ocr c) as [o ocr']. simpl.
    destruct (py_getitem det "label") as [lb | e]; simpl;
      [ | rewrite Hcalls; auto].
    destruct (py_getitem det "label_id") as [li | e]; simpl;
      [ | rewrite Hcalls; auto].
    destruct (py_getitem det "confidence") as [cf | e]; simpl;
      rewrite Hcalls; auto.
  - destruct (py_getitem det "label") as [lb | e]; simpl; [ | auto].
    destruct (py_getitem det "label_id") as [li | e]; simpl; [ | auto].
    destruct (py_getitem det "confidence") as [cf | e]; simpl; auto.
Qed.

Lemma process_regions_threshold (img : image) (thr1 thr2 : float)
    (total : nat) (regions : list pyval) :
  forall (idx : nat) (ocr : OcrState) (results : list result_entry)
         (w1 w2 : world),
  ocr_calls w1 = ocr_calls w2 -> files w1 = files w2 ->
  fst (process_regions predict img thr1 total regions idx ocr results w1)
  = fst (process_regions predict img thr2 total regions idx ocr results w2) /\
  ocr_calls (snd (process_regions predict img thr1 total regions idx ocr results w1))
  = ocr_calls (snd (process_regions predict img thr2 total regions idx ocr results w2)) /\
  files (snd (process_regions predict img thr1 total regions idx ocr results w1))
  = files (snd (process_regions predict img thr2 total regions idx ocr results w2)).
Proof.
  induction regions as [ | det rest IH]; intros idx ocr results w1 w2 Hc Hf.
  - simpl. auto.
  - simpl process_regions. unfold bind.
    destruct (process_region_threshold img thr1 thr2 total idx det ocr w1 w2 Hc Hf)
      as (Hv & Hc' & Hf').
    destruct (process_region predict img thr1 total idx det ocr w1) as [r1 u1].
    destruct (process_region predict img thr2 total idx det ocr w2) as [r2 u2].
    simpl in Hv, Hc', Hf'. subst r2.
    destruct r1 as [[entry ocr'] | e]; simpl; [ | auto].
    apply IH; assumption.
Qed.

(** The loop writes no file, however it ends. *)
Lemma process_region_files (img : image) (thr : float) (total idx : nat)
    (det : pyval) (ocr : OcrState) (w : world) :
  files (snd (process_region predict img thr total idx det ocr w)) = files w.
Proof.
  unfold process_region. run_monad.
  destruct (py_getitem det "bbox") as [b | e]; simpl; [ | reflexivity].
  destruct (crop_region img b) as [[c | ] | e]; simpl; [ | | reflexivity].
  - unfold run_ocr_on_crop. run_monad.
    destruct (predict ocr c) as [o ocr']. simpl.
    destruct (py_getitem det "label") as [lb | e]; simpl; [ | reflexivity].
    destruct (py_getitem det "label_id") as [li | e]; simpl; [ | reflexivity].
    destruct (py_getitem det "confidence") as [cf | e]; reflexivity.
  - destruct (py_getitem det "label") as [lb | e]; simpl; [ | reflexivity].
    destruct (py_getitem det "label_id") as [li | e]; simpl; [ | reflexivity].
    destruct (py_getitem det "confidence") as [cf | e]; reflexivity.
Qed.

Lemma process_regions_files (img : image) (thr : float) (total : nat)
    (regions : list pyval) :
  forall (idx : nat) (ocr : OcrState) (results : list result_entry) (w : world),
  files (snd (process_regions predict img thr total regions idx ocr results w))
  = files w.
Proof.
  induction regions as [ | det rest IH]; intros idx ocr results w.
  - reflexivity.
  - simpl process_regions. unfold bind.
    pose proof (process_region_files img thr total idx det ocr w) as Hstep.
    destruct (process_region predict img thr total idx det ocr w)
      as [[[entry ocr'] | e] w1]; simpl in *.
    + rewrite IH. exact Hstep.
    + exact Hstep.
Qed.

(* ----------------------------------------------------------------- *)
(** ** [process_image] *)

Local Abbreviation run_image :=
  (process_image image_open load_bubble_json PaddleOCR predict utc_now).

(** The world in which the loop of [process_image] starts. *)
Definition loop_start (image_path bubble_json_path lang : string)
    (n_regions : nat) (w : world) : world :=
  {| ocr_calls := ocr_calls w;
     stdout := (((stdout w ++ [LoadingImage image_path])
                 ++ [LoadingBubbles bubble_json_path])
                ++ [FoundTextRegions n_regions])
               ++ [InitializingOcr lang];
     files := files w |}.

(** Once its four collaborators have answered, [process_image] is its loop. *)
Lemma process_image_loop (image_path bubble_json_path lang : string)
    (thr : float) (w : world) (img : image) (bubble_data : pyval)
    (regions : list pyval) (ocr : OcrState) :
  image_open image_path = Ok img ->
  load_bubble_json bubble_json_path = Ok bubble_data ->
  filter_text_regions bubble_data = Ok regions ->
  PaddleOCR lang = Ok ocr ->
  run_image image_path bubble_json_path lang thr w
  = match process_regions predict img thr (List.length regions) regions 1%nat
            ocr []
            (loop_start image_path bubble_json_path lang (List.length regions) w)
    with
    | (Ok results, w') =>
        (Ok {| image_info_field :=
                 {| path := image_path;
                    info_width := width img;
                    info_height := height img |};
               detections := results;
               ocr_config_field :=
                 {| lang := lang; model := "paddleocr"; version := "3.3.2";
                    confidence_threshold := thr |};
               source_bubble_file := bubble_json_path;
               processed_at := utc_now |}, w')
    | (Raise e, w') => (Raise e, w')
    end.
Proof.
  intros Himg Hdata Hfilter Hocr. unfold process_image, loop_start. run_monad.
  rewrite Himg. simpl. rewrite Hdata. simpl. rewrite Hfilter. simpl.
  rewrite Hocr. simpl. reflexivity.
Qed.

(** A run that returns a document had all four answers. *)
Lemma process_image_returns (image_path bubble_json_path lang : string)
    (thr : float) (w w' : world) (doc : document) :
  run_image image_path bubble_json_path lang thr w = (Ok doc, w') ->
  exists img bubble_data regions ocr,
    image_open image_path = Ok img /\
    load_bubble_json bubble_json_path = Ok bubble_data /\
    filter_text_regions bubble_data = Ok regions /\
    PaddleOCR lang = Ok ocr.
Proof.
  unfold process_image. run_monad.
  destruct (image_open image_path) as [img | e] eqn:Himg; simpl;
    [ | discriminate].
  destruct (load_bubble_json bubble_json_path) as [data | e] eqn:Hdata; simpl;
    [ | discriminate].
  destruct (filter_text_regions data) as [regions | e] eqn:Hfilter; simpl;
    [ | discriminate].
  destruct (PaddleOCR lang) as [ocr | e] eqn:Hocr; simpl; [ | discriminate].
  intros _. exists img, data, regions, ocr. auto.
Qed.

(** The run on a page whose text regions can all be read. *)
Lemma process_image_ok (image_path bubble_json_path lang : string)
    (thr : float) (w : world) (img : image) (bubble_data : pyval)
    (regions : list pyval) (ocr : OcrState) :
  image_open image_path = Ok img ->
  load_bubble_json bubble_json_path = Ok bubble_data ->
  filter_text_regions bubble_data = Ok regions ->
  PaddleOCR lang = Ok ocr ->
  Forall (fun det => region_ok img det = true) regions ->
  exists doc w',
    run_image image_path bubble_json_path lang thr w = (Ok doc, w') /\
    Forall2 (entry_of predict img) regions (detections doc) /\
    ocr_calls w' = ocr_calls w ++ crops_of img regions /\
    files w' = files w.
Proof.
  intros Himg Hdata Hfilter Hocr Hall.
  rewrite (process_image_loop _ _ _ thr w _ _ _ _ Himg Hdata Hfilter Hocr).
  destruct (process_regions_ok img thr (List.length regions) regions Hall 1%nat
              ocr [] (loop_start image_path bubble_json_path lang
                        (List.length regions) w))
    as (entries & w' & Hloop & Hentries & Hcalls & Hfiles).
  rewrite Hloop. simpl.
  eexists; exists w'. split; [reflexivity | ]. simpl. auto.
Qed.

(** Every document a run returns is of that kind. *)
Lemma process_image_entries (image_path bubble_json_path lang : string)
    (thr : float) (w w' : world) (doc : document) (img : image)
    (bubble_data : pyval) (regions : list pyval) :
  run_image image_path bubble_json_path lang thr w = (Ok doc, w') ->
  image_open image_path = Ok img ->
  load_bubble_json bubble_json_path = Ok bubble_data ->
  filter_text_regions bubble_data = Ok regions ->
  Forall2 (entry_of predict img) regions (detections doc) /\
  ocr_calls w' = ocr_calls w ++ crops_of img regions /\
  files w' = files w.
Proof.
  intros Hrun Himg Hdata Hfilter.
  destruct (process_image_returns _ _ _ _ _ _ _ Hrun)
    as (img' & data' & regions' & ocr & Himg' & Hdata' & Hfilter' & Hocr).
  assert (img' = img) by congruence. subst img'.
  assert (data' = bubble_data) by congruence. subst data'.
  assert (regions' = regions) by congruence. subst regions'.
  assert (Hall : Forall (fun det => region_ok img det = true) regions).
  { rewrite (process_image_loop _ _ _ thr w _ _ _ _ Himg Hdata Hfilter Hocr)
      in Hrun.
    destruct (process_regions predict img thr (List.length regions) regions
                1%nat ocr []
                (loop_start image_path bubble_json_path lang
                   (List.length regions) w)) as [[results | e] w1] eqn:Hloop;
      [ | discriminate].
    eapply process_regions_returns. exact Hloop. }
  destruct (process_image_ok _ _ _ thr w _ _ _ _ Himg Hdata Hfilter Hocr Hall)
    as (doc' & w1 & Hrun' & Hentries & Hcalls & Hfiles).
  rewrite Hrun in Hrun'. inversion Hrun'; subst. auto.
Qed.

(* ----------------------------------------------------------------- *)
(** ** Properties of the pipeline *)

Lemma Forall2_Forall_right {A B : Type} (R : A -> B -> Prop) (P : A -> Prop)
    (Q : B -> Prop) (l1 : list A) (l2 : list B) :
  (forall a b, P a -> R a b -> Q b) ->
  Forall2 R l1 l2 -> Forall P l1 -> Forall Q l2.
Proof.
  intros Hstep. induction 1 as [ | a b l1 l2 Hab _ IH]; intros Hall.
  - constructor.
  - inversion Hall; subst. constructor; eauto.
Qed.

(** C1: whatever the recognizer does on each crop, the run on a document of
    well-formed detections returns a document with exactly one entry per
    text-labelled detection, in order; each entry carries either the
    rejection record or the conversion of what the recognizer did on that
    detection's own crop, the recognizer is called once per crop, and a
    raised exception is converted to a record with an error and no lines. *)
Theorem one_entry_per_text_region (image_path bubble_json_path lang : string)
    (thr : float) (w : world) (img : image) (bubble_data : pyval)
    (regions : list pyval) (ocr : OcrState) :
  image_open image_path = Ok img ->
  load_bubble_json bubble_json_path = Ok bubble_data ->
  filter_text_regions bubble_data = Ok regions ->
  Forall (fun det => well_formed_detection det = true) regions ->
  PaddleOCR lang = Ok ocr ->
  exists doc w',
    run_image image_path bubble_json_path lang thr w = (Ok doc, w') /\
    List.length (detections doc) = List.length regions /\
    Forall2 (entry_of predict img) regions (detections doc) /\
    ocr_calls w' = ocr_calls w ++ crops_of img regions /\
    (forall msg,
        ocr_result_of (Raises msg)
        = {| text_lines := []; full_text := ""; avg_confidence := 0%float;
             error := Some ("OCR failed: " ++ msg)%string |}).
Proof.
  intros Himg Hdata Hfilter Hwf Hocr.
  assert (Hall : Forall (fun det => region_ok img det = true) regions).
  { eapply Forall_impl; [ | exact Hwf]. intros det. apply well_formed_region_ok. }
  destruct (process_image_ok image_path bubble_json_path lang thr w img
              bubble_data regions ocr Himg Hdata Hfilter Hocr Hall)
    as (doc & w' & Hrun & Hentries & Hcalls & _).
  exists doc, w'. repeat split.
  - exact Hrun.
  - symmetry. eapply Forall2_length. exact Hentries.
  - exact Hentries.
  - exact Hcalls.
Qed.

(** C3: a clamped box is rejected exactly when it is empty or less than 20
    pixels wide or high; otherwise it is the crop.  On a rejection the loop
    body returns the entry with the record
    [error = "Invalid crop region"], no lines and confidence 0.0, leaves the
    recognizer as it was and adds no call to it. *)
Theorem crop_rejection (img : image) (b : pyval) (x1 y1 x2 y2 : Z) :
  clamp_bbox img b = Ok (x1, y1, x2, y2) ->
  (crop_region img b = Ok None <->
   (x2 <= x1 \/ y2 <= y1 \/ x2 - x1 < 20 \/ y2 - y1 < 20)) /\
  (crop_region img b <> Ok None ->
   crop_region img b
   = Ok (Some {| crop_source := img; crop_x1 := x1; crop_y1 := y1;
                 crop_x2 := x2; crop_y2 := y2 |})) /\
  (crop_region img b = Ok None ->
   forall (thr : float) (total idx : nat) (det : pyval) (ocr : OcrState)
          (w : world) (lb li cf : pyval),
     py_getitem det "bbox" = Ok b ->
     py_getitem det "label" = Ok lb ->
     py_getitem det "label_id" = Ok li ->
     py_getitem det "confidence" = Ok cf ->
     exists w',
       process_region predict img thr total idx det ocr w
       = (Ok ({| label := lb; label_id := li; det_confidence := cf; bbox := b;
                 ocr_result_field :=
                   {| text_lines := []; full_text := "";
                      avg_confidence := 0%float;
                      error := Some "Invalid crop region" |} |}, ocr), w') /\
       ocr_calls w' = ocr_calls w).
Proof.
  intros Hclamp.
  pose proof (crop_region_clamped img b x1 y1 x2 y2 Hclamp) as Hcrop.
  pose proof (rejected_spec x1 y1 x2 y2) as Hrej.
  destruct (rejected x1 y1 x2 y2) eqn:Hr; rewrite Hcrop.
  - split; [ | split].
    + split; [intros _; apply Hrej; reflexivity | reflexivity].
    + intros Hne. exfalso. apply Hne. reflexivity.
    + intros _ thr total idx det ocr w lb li cf Hb Hl Hi Hc.
      unfold process_region. run_monad.
      rewrite Hb. simpl. rewrite Hcrop. simpl.
      rewrite Hl. simpl. rewrite Hi. simpl. rewrite Hc. simpl.
      eexists. split; reflexivity.
  - split; [ | split].
    + split; [discriminate | ].
      intros H. apply Hrej in H. discriminate.
    + reflexivity.
    + discriminate.
Qed.

Lemma text_label_id (det v : pyval) :
  text_label det = true -> py_getitem det "label_id" = Ok v ->
  in_1_2 v = true.
Proof.
  destruct det as [ | | | | | | d]; try discriminate. simpl.
  destruct (dict_lookup "label_id" d) as [v' | ]; [ | discriminate].
  intros Hv Heq. congruence.
Qed.

(** C4: on a document of well-formed detections the filter keeps exactly the
    detections whose [label_id] is 1 or 2, in their order; the output has one
    entry for each of them, in that order, every entry carries such a label,
    and the recognizer is called on the crops of those detections and on no
    other. *)
Theorem only_text_labels_reach_ocr (image_path bubble_json_path lang : string)
    (thr : float) (w : world) (img : image) (d : list (string * pyval))
    (items : list pyval) (ocr : OcrState) :
  image_open image_path = Ok img ->
  load_bubble_json bubble_json_path = Ok (PyDict d) ->
  dict_lookup "detections" d = Some (PyList items) ->
  Forall (fun det => well_formed_detection det = true) items ->
  PaddleOCR lang = Ok ocr ->
  filter_text_regions (PyDict d) = Ok (filter text_label items) /\
  (forall z : Z, in_1_2 (PyInt z) = true <-> z = 1 \/ z = 2) /\
  exists doc w',
    run_image image_path bubble_json_path lang thr w = (Ok doc, w') /\
    Forall2 (entry_of predict img) (filter text_label items) (detections doc) /\
    Forall (fun entry => in_1_2 (label_id entry) = true) (detections doc) /\
    ocr_calls w' = ocr_calls w ++ crops_of img (filter text_label items).
Proof.
  intros Himg Hdata Hd Hwf Hocr.
  assert (Hdicts : Forall (fun det => is_dict det = true) items).
  { eapply Forall_impl; [ | exact Hwf].
    intros [ | | | | | | d']; simpl; intros H; (discriminate || reflexivity). }
  pose proof (filter_text_regions_records d items Hd Hdicts) as Hfilter.
  assert (Hall : Forall (fun det => region_ok img det = true)
                   (filter text_label items)).
  { apply Forall_forall. intros det Hin. apply filter_In in Hin.
    apply well_formed_region_ok.
    rewrite Forall_forall in Hwf. apply Hwf. tauto. }
  destruct (process_image_ok image_path bubble_json_path lang thr w img
              (PyDict d) (filter text_label items) ocr
              Himg Hdata Hfilter Hocr Hall)
    as (doc & w' & Hrun & Hentries & Hcalls & _).
  split; [exact Hfilter | ]. split; [exact in_1_2_int | ].
  exists doc, w'. repeat split; try assumption.
  apply (Forall2_Forall_right (entry_of predict img)
           (fun det => text_label det = true)
           (fun entry => in_1_2 (label_id entry) = true)
           (filter text_label items) (detections doc)).
  - intros det entry Hlabel (_ & Hid & _). eapply text_label_id; eassumption.
  - exact Hentries.
  - apply Forall_forall. intros det Hin. apply filter_In in Hin. tauto.
Qed.

Lemma entry_of_invariant (img : image) (det : pyval) (entry : result_entry) :
  entry_of predict img det entry -> ocr_invariant (ocr_result_field entry).
Proof.
  intros (_ & _ & _ & _ & [(_ & Hr) | (c & ocr & _ & Hr)]); rewrite Hr.
  - apply invalid_crop_region_invariant.
  - apply ocr_result_of_invariant.
Qed.

(** C5: in every document a run returns, each OCR result satisfies the
    invariant: an error comes with no lines and confidence 0.0, and a result
    without error and without lines has confidence 0.0. *)
Theorem ocr_results_keep_invariant (image_path bubble_json_path lang : string)
    (thr : float) (w w' : world) (doc : document) :
  run_image image_path bubble_json_path lang thr w = (Ok doc, w') ->
  Forall (fun entry => ocr_invariant (ocr_result_field entry)) (detections doc).
Proof.
  intros Hrun.
  destruct (process_image_returns _ _ _ _ _ _ _ Hrun)
    as (img & data & regions & ocr & Himg & Hdata & Hfilter & _).
  destruct (process_image_entries _ _ _ _ _ _ _ _ _ _ Hrun Himg Hdata Hfilter)
    as (Hentries & _).
  apply (Forall2_Forall_right (entry_of predict img) (fun _ => True)
           (fun entry => ocr_invariant (ocr_result_field entry))
           regions (detections doc)).
  - intros det entry _ H. eapply entry_of_invariant. exact H.
  - exact Hentries.
  - apply Forall_forall. intros; exact I.
Qed.

(** C8: two runs that differ only in the threshold end alike, with the same
    exception or with the same [detections] sequence, after the same calls to
    the recognizer; the threshold only chooses the progress line that is
    printed. *)
Theorem threshold_only_reports (image_path bubble_json_path lang : string)
    (thr1 thr2 : float) (w : world) :
  detections_of (fst (run_image image_path bubble_json_path lang thr1 w))
  = detections_of (fst (run_image image_path bubble_json_path lang thr2 w)) /\
  ocr_calls (snd (run_image image_path bubble_json_path lang thr1 w))
  = ocr_calls (snd (run_image image_path bubble_json_path lang thr2 w)).
Proof.
  destruct (image_open image_path) as [img | e] eqn:Himg;
    [ | unfold process_image; run_monad; rewrite Himg; simpl; auto].
  destruct (load_bubble_json bubble_json_path) as [data | e] eqn:Hdata;
    [ | unfold process_image; run_monad; rewrite Himg; simpl;
        rewrite Hdata; simpl; auto].
  destruct (filter_text_regions data) as [regions | e] eqn:Hfilter;
    [ | unfold process_image; run_monad; rewrite Himg; simpl;
        rewrite Hdata; simpl; rewrite Hfilter; simpl; auto].
  destruct (PaddleOCR lang) as [ocr | e] eqn:Hocr;
    [ | unfold process_image; run_monad; rewrite Himg; simpl;
        rewrite Hdata; simpl; rewrite Hfilter; simpl; rewrite Hocr; simpl;
        auto].
  rewrite (process_image_loop _ _ _ thr1 w _ _ _ _ Himg Hdata Hfilter Hocr).
  rewrite (process_image_loop _ _ _ thr2 w _ _ _ _ Himg Hdata Hfilter Hocr).
  destruct (process_regions_threshold img thr1 thr2 (List.length regions)
              regions 1%nat ocr []
              (loop_start image_path bubble_json_path lang
                 (List.length regions) w)
              (loop_start image_path bubble_json_path lang
                 (List.length regions) w) eq_refl eq_refl)
    as (Hv & Hc & _).
  destruct (process_regions predict img thr1 _ _ _ _ _ _) as [r1 u1].
  destruct (process_regions predict img thr2 _ _ _ _ _ _) as [r2 u2].
  simpl in Hv, Hc. subst r2.
  destruct r1 as [results | e]; simpl; auto.
Qed.

(** C10: in every document a run returns, the [label], [label_id],
    [confidence] and [bbox] of each entry are the values stored under those
    keys in the detection it comes from; [bbox] is the detection's own box,
    whatever [crop_region] clamped it to. *)
Theorem entries_copy_detection_fields
    (image_path bubble_json_path lang : string) (thr : float) (w w' : world)
    (doc : document) (img : image) (bubble_data : pyval)
    (regions : list pyval) :
  run_image image_path bubble_json_path lang thr w = (Ok doc, w') ->
  image_open image_path = Ok img ->
  load_bubble_json bubble_json_path = Ok bubble_data ->
  filter_text_regions bubble_data = Ok regions ->
  Forall2 (fun det entry =>
             py_getitem det "label" = Ok (label entry) /\
             py_getitem det "label_id" = Ok (label_id entry) /\
             py_getitem det "confidence" = Ok (det_confidence entry) /\
             py_getitem det "bbox" = Ok (bbox entry))
          regions (detections doc).
Proof.
  intros Hrun Himg Hdata Hfilter.
  destruct (process_image_entries _ _ _ _ _ _ _ _ _ _ Hrun Himg Hdata Hfilter)
    as (Hentries & _).
  eapply Forall2_impl; [ | exact Hentries].
  intros det entry (Hl & Hi & Hc & Hb & _). auto.
Qed.

(** [run_ocr_on_crop] always returns: the conversion of what [predict] did,
    with the call recorded. *)
Lemma run_ocr_on_crop_value (ocr : OcrState) (c : crop) (w : world) :
  run_ocr_on_crop predict ocr c w
  = (Ok (ocr_result_of (fst (predict ocr c)), snd (predict ocr c)),
     {| ocr_calls := ocr_calls w ++ [c]; stdout := stdout w; files := files w |}).
Proof.
  unfold run_ocr_on_crop. run_monad. destruct (predict ocr c). reflexivity.
Qed.

(** C6 (as amended): [run_ocr_on_crop] sets the error to
    ["No text detected"] exactly when the recognizer returns an empty result
    or an empty first element; when the first element is a non-empty record
    that yields no line (its [rec_texts] or [rec_scores] is empty or absent),
    the result has no error, no lines, an empty text and confidence 0.0. *)
Theorem no_text_detected_rule (ocr : OcrState) (c : crop) (w : world) :
  exists r w',
    run_ocr_on_crop predict ocr c w = (Ok (r, snd (predict ocr c)), w') /\
    (error r = Some "No text detected" <->
     (fst (predict ocr c) = Returns [] \/
      exists rest, fst (predict ocr c) = Returns (EmptyPage :: rest))) /\
    (forall texts scores rest,
        fst (predict ocr c) = Returns (Page texts scores :: rest) ->
        lines_of texts scores = [] ->
        r = {| text_lines := []; full_text := ""; avg_confidence := 0%float;
               error := None |}).
Proof.
  rewrite run_ocr_on_crop_value. eexists; eexists. split; [reflexivity | ].
  destruct (fst (predict ocr c)) as [msg | [ | [ | texts scores] rest]].
  - split.
    + split; [simpl; intros H; discriminate H | ].
      intros [H | (rest & H)]; discriminate H.
    + intros texts scores rest H. discriminate H.
  - split.
    + split; [intros _; left; reflexivity | reflexivity].
    + intros texts scores rest H. discriminate H.
  - split.
    + split; [intros _; right; exists rest; reflexivity | reflexivity].
    + intros texts scores rest' H. discriminate H.
  - rewrite ocr_result_of_page. cbv zeta. split.
    + split; [simpl; intros H; discriminate H | ].
      intros [H | (rest' & H)]; discriminate H.
    + intros texts' scores' rest' H Hnil. inversion H; subst.
      rewrite Hnil. reflexivity.
Qed.

(** C7 (as amended): on a page record the lines are the zipped texts, each
    with its score rounded to four decimals, and [avg_confidence] is the
    arithmetic mean of the scores of those lines as the recognizer gave
    them, before that rounding, itself rounded to four decimals; it is the
    rounded mean of the confidences stored in [text_lines] when the scores
    have no more than four decimals.  Scores 0.9, 0.7 and 0.5 give 0.7.
    Whatever the recognizer did, a result without lines has confidence
    0.0. *)
Theorem avg_confidence_is_rounded_mean (ocr : OcrState) (c : crop) (w : world) :
  exists r w',
    run_ocr_on_crop predict ocr c w = (Ok (r, snd (predict ocr c)), w') /\
    (forall texts scores rest,
        fst (predict ocr c) = Returns (Page texts scores :: rest) ->
        text_lines r
        = map (fun p => {| text := fst p; confidence := round4 (snd p) |})
              (lines_of texts scores) /\
        (lines_of texts scores <> [] ->
         avg_confidence r = round4 (mean (map snd (lines_of texts scores)))) /\
        (lines_of texts scores <> [] ->
         Forall (fun p => round4 (snd p) = snd p) (lines_of texts scores) ->
         avg_confidence r = round4 (mean (map confidence (text_lines r))))) /\
    (text_lines r = [] -> avg_confidence r = 0%float) /\
    round4 (mean [0.9; 0.7; 0.5]%float) = 0.7%float.
Proof.
  rewrite run_ocr_on_crop_value. eexists; eexists. split; [reflexivity | ].
  split; [ | split; [ | reflexivity]].
  - intros texts scores rest H. rewrite H, ocr_result_of_page. cbv zeta. simpl.
    split; [reflexivity | split].
    + destruct (lines_of texts scores); [intros Hne; contradiction | reflexivity].
    + intros Hne Hexact. rewrite map_map. simpl.
      rewrite (map_ext_Forall _ _ Hexact).
      destruct (lines_of texts scores); [contradiction | reflexivity].
  - intros Hnil.
    destruct (ocr_result_of_invariant (fst (predict ocr c))) as (Herr & _).
    destruct (fst (predict ocr c)) as [msg | [ | [ | texts scores] rest]];
      try reflexivity.
    rewrite ocr_result_of_page in *. cbv zeta in *. simpl in *.
    destruct (lines_of texts scores); [apply round4_zero | discriminate].
Qed.

Lemma readable_spec (img : image) (bubble_data : pyval) :
  readable img bubble_data = true <->
  exists regions,
    filter_text_regions bubble_data = Ok regions /\
    Forall (fun det => region_ok img det = true) regions.
Proof.
  unfold readable.
  destruct (filter_text_regions bubble_data) as [regions | e].
  - rewrite forallb_forall, <- Forall_forall. split.
    + intros H. exists regions. auto.
    + intros (regions' & Heq & H). congruence.
  - split; [discriminate | intros (regions & Heq & _); discriminate].
Qed.

(* ----------------------------------------------------------------- *)
(** ** [main] and the output file *)

Variable json_dump : string -> document -> write_outcome.

Local Abbreviation run_main :=
  (main image_open load_bubble_json PaddleOCR predict utc_now json_dump).

(** When [process_image] returns a document, the exit status of [main],
    the files it leaves and its last line are those of the write: status 0,
    the document in full and the summary when the write returns; status 1
    and the error of the write when it raises, with no file when [open]
    raised and a partial one when [json.dump] did. *)
Lemma main_returns (image_path bubble_json_path output_path lang : string)
    (thr : float) (w w' : world) (doc : document) :
  run_image image_path bubble_json_path lang thr (snd (print Banner w))
  = (Ok doc, w') ->
  match json_dump output_path doc with
  | Written =>
      fst (run_main image_path bubble_json_path output_path lang thr w) = 0 /\
      files (snd (run_main image_path bubble_json_path output_path lang thr w))
      = files w' ++ [(output_path, Complete doc)] /\
      last (stdout (snd (run_main image_path bubble_json_path output_path
                           lang thr w))) Banner
      = Success (List.length (detections doc)) (with_text (detections doc))
  | OpenRaises e =>
      fst (run_main image_path bubble_json_path output_path lang thr w) = 1 /\
      files (snd (run_main image_path bubble_json_path output_path lang thr w))
      = files w' /\
      last (stdout (snd (run_main image_path bubble_json_path output_path
                           lang thr w))) Banner
      = RunError e
  | DumpRaises e =>
      fst (run_main image_path bubble_json_path output_path lang thr w) = 1 /\
      files (snd (run_main image_path bubble_json_path output_path lang thr w))
      = files w' ++ [(output_path, Truncated doc)] /\
      last (stdout (snd (run_main image_path bubble_json_path output_path
                           lang thr w))) Banner
      = RunError e
  end.
Proof.
  intros Hrun. unfold print in Hrun. simpl in Hrun.
  unfold main. run_monad. rewrite Hrun. simpl.
  destruct (json_dump output_path doc) as [ | e | e]; simpl;
    (split; [reflexivity | split; [reflexivity | apply last_last]]).
Qed.

(** When [process_image] raises, [main] exits with 1, reports that
    exception and does not reach the write. *)
Lemma main_raises (image_path bubble_json_path output_path lang : string)
    (thr : float) (w w' : world) (e : exn) :
  run_image image_path bubble_json_path lang thr (snd (print Banner w))
  = (Raise e, w') ->
  fst (run_main image_path bubble_json_path output_path lang thr w) = 1 /\
  files (snd (run_main image_path bubble_json_path output_path lang thr w))
  = files w' /\
  last (stdout (snd (run_main image_path bubble_json_path output_path
                       lang thr w))) Banner
  = RunError e.
Proof.
  intros Hrun. unfold print in Hrun. simpl in Hrun.
  unfold main. run_monad. rewrite Hrun. simpl.
  split; [reflexivity | split; [reflexivity | apply last_last]].
Qed.

(** C9 (as amended): with the image and the recognizer loaded,
    [process_image] raises, and [main] reports that exception, exits with
    status 1 and leaves every file as it was, exactly when the document
    cannot be read: the filter raises (the document is not an object, its
    [detections] cannot be iterated or hold an item that is not an object) or
    a record labelled 1 or 2 lacks what the loop reads from it.  A document
    without the [detections] key, and one whose records carry no such label,
    is read: [process_image] returns its document, and [main] writes it and
    exits with status 0, unless the write of the output file itself raises;
    then [main] exits with status 1 and reports the error of the write,
    having left no file when [open] raised and a partial one when
    [json.dump] did. *)
Theorem unreadable_document_aborts
    (image_path bubble_json_path output_path lang : string) (thr : float)
    (w : world) (img : image) (bubble_data : pyval) (ocr : OcrState) :
  image_open image_path = Ok img ->
  load_bubble_json bubble_json_path = Ok bubble_data ->
  PaddleOCR lang = Ok ocr ->
  (readable img bubble_data = false ->
   exists e,
     fst (run_image image_path bubble_json_path lang thr (snd (print Banner w)))
     = Raise e /\
     fst (run_main image_path bubble_json_path output_path lang thr w) = 1 /\
     files (snd (run_main image_path bubble_json_path output_path lang thr w))
     = files w /\
     last (stdout (snd (run_main image_path bubble_json_path output_path
                          lang thr w))) Banner
     = RunError e) /\
  (readable img bubble_data = true ->
   exists doc,
     fst (run_image image_path bubble_json_path lang thr (snd (print Banner w)))
     = Ok doc /\
     match json_dump output_path doc with
     | Written =>
         fst (run_main image_path bubble_json_path output_path lang thr w) = 0 /\
         files (snd (run_main image_path bubble_json_path output_path lang
                       thr w))
         = files w ++ [(output_path, Complete doc)]
     | OpenRaises e =>
         fst (run_main image_path bubble_json_path output_path lang thr w) = 1 /\
         files (snd (run_main image_path bubble_json_path output_path lang
                       thr w))
         = files w /\
         last (stdout (snd (run_main image_path bubble_json_path output_path
                              lang thr w))) Banner
         = RunError e
     | DumpRaises e =>
         fst (run_main image_path bubble_json_path output_path lang thr w) = 1 /\
         files (snd (run_main image_path bubble_json_path output_path lang
                       thr w))
         = files w ++ [(output_path, Truncated doc)] /\
         last (stdout (snd (run_main image_path bubble_json_path output_path
                              lang thr w))) Banner
         = RunError e
     end) /\
  (is_dict bubble_data = false -> readable img bubble_data = false) /\
  (forall d, bubble_data = PyDict d -> dict_lookup "detections" d = None ->
             readable img bubble_data = true) /\
  (forall d items,
      bubble_data = PyDict d ->
      dict_lookup "detections" d = Some (PyList items) ->
      Forall (fun det => is_dict det = true /\ text_label det = false) items ->
      readable img bubble_data = true).
Proof.
  intros Himg Hdata Hocr.
  set (w0 := snd (print Banner w)).
  assert (Hw0 : files w0 = files w) by reflexivity.
  split; [ | split; [ | split; [ | split]]].
  - intros Hno.
    assert (Hraise : exists e w',
               run_image image_path bubble_json_path lang thr w0 = (Raise e, w')
               /\ files w' = files w0).
    { unfold readable in Hno.
      destruct (filter_text_regions bubble_data) as [regions | e] eqn:Hfilter.
      - rewrite (process_image_loop _ _ _ thr w0 _ _ _ _ Himg Hdata Hfilter Hocr).
        destruct (process_regions predict img thr (List.length regions) regions
                    1%nat ocr []
                    (loop_start image_path bubble_json_path lang
                       (List.length regions) w0))
          as [[results | e] w1] eqn:Hloop.
        + exfalso.
          pose proof (process_regions_returns _ _ _ _ _ _ _ _ _ _ Hloop) as Hall.
          rewrite Forall_forall, <- forallb_forall in Hall. congruence.
        + exists e, w1. split; [reflexivity | ].
          pose proof (process_regions_threshold img thr thr
                        (List.length regions) regions 1%nat ocr []
                        (loop_start image_path bubble_json_path lang
                           (List.length regions) w0) w0 eq_refl eq_refl)
            as (_ & _ & Hf).
          rewrite Hloop in Hf. simpl in Hf.
          pose proof (process_regions_files img thr (List.length regions)
                        regions 1%nat ocr [] w0) as Hf0.
          congruence.
      - unfold process_image. run_monad. rewrite Himg. simpl.
        rewrite Hdata. simpl. rewrite Hfilter. simpl.
        eexists; eexists. split; reflexivity. }
    destruct Hraise as (e & w' & Hrun & Hfiles).
    destruct (main_raises image_path bubble_json_path output_path lang thr
                w w' e Hrun) as (Hcode & Hf & Hlast).
    exists e. fold w0. rewrite Hrun.
    split; [reflexivity | ]. split; [exact Hcode | ].
    split; [congruence | exact Hlast].
  - intros Hyes. apply readable_spec in Hyes.
    destruct Hyes as (regions & Hfilter & Hall).
    destruct (process_image_ok image_path bubble_json_path lang thr w0 img
                bubble_data regions ocr Himg Hdata Hfilter Hocr Hall)
      as (doc & w' & Hrun & _ & _ & Hfiles).
    pose proof (main_returns image_path bubble_json_path output_path lang thr
                  w w' doc Hrun) as Hmain.
    exists doc. fold w0. rewrite Hrun. split; [reflexivity | ].
    destruct (json_dump output_path doc) as [ | e | e].
    + destruct Hmain as (Hcode & Hf & _). split; [exact Hcode | congruence].
    + destruct Hmain as (Hcode & Hf & Hlast).
      split; [exact Hcode | split; [congruence | exact Hlast]].
    + destruct Hmain as (Hcode & Hf & Hlast).
      split; [exact Hcode | split; [congruence | exact Hlast]].
  - unfold readable, filter_text_regions.
    destruct bubble_data; simpl; (discriminate || reflexivity).
  - intros d Hd Hnone. subst bubble_data.
    unfold readable, filter_text_regions. simpl. rewrite Hnone. reflexivity.
  - intros d items Hd Hsome Hitems. subst bubble_data.
    unfold readable.
    rewrite (filter_text_regions_records d items Hsome).
    + rewrite forallb_forall. intros det Hin. apply filter_In in Hin.
      rewrite Forall_forall in Hitems. destruct Hin as (Hin & Hlabel).
      apply Hitems in Hin. destruct Hin as (_ & Hno). congruence.
    + eapply Forall_impl; [ | exact Hitems]. intros det (H & _). exact H.
Qed.

End Properties.

(* ================================================================= *)
(** * The properties on the demonstration page *)

Lemma one_entry_per_text_region_witness :
  exists doc w',
    Demo.run 0.5 = (Ok doc, w') /\
    List.length (detections doc) = 3%nat.
Proof.
  destruct (one_entry_per_text_region nat Demo.image_open Demo.load_bubble_json
              Demo.PaddleOCR Demo.predict Demo.utc_now
              "page.png" "page.json" "chinese_cht" 0.5%float Demo.start
              Demo.page Demo.bubbles
              [Demo.free_text; Demo.bubble_text; Demo.sliver] 0%nat
              eq_refl eq_refl eq_refl
              ltac:(repeat constructor) eq_refl)
    as (doc & w' & Hrun & Hlen & _).
  exists doc, w'. split; [exact Hrun | exact Hlen].
Defined.

Lemma crop_rejection_witness :
  crop_region Demo.page Demo.sliver_box = Ok None <->
  (800 <= 781 \/ 25 <= 0 \/ 800 - 781 < 20 \/ 25 - 0 < 20).
Proof.
  exact (proj1 (crop_rejection nat Demo.predict Demo.page Demo.sliver_box
                  781 0 800 25 eq_refl)).
Defined.

Lemma only_text_labels_reach_ocr_witness :
  filter_text_regions Demo.bubbles
  = Ok [Demo.free_text; Demo.bubble_text; Demo.sliver].
Proof.
  refine (proj1 (only_text_labels_reach_ocr nat Demo.image_open
                   Demo.load_bubble_json Demo.PaddleOCR Demo.predict
                   Demo.utc_now "page.png" "page.json" "chinese_cht" 0.5%float
                   Demo.start Demo.page _
                   [Demo.free_text; Demo.bubble; Demo.bubble_text; Demo.sliver]
                   0%nat eq_refl eq_refl eq_refl _ eq_refl)).
  repeat constructor.
Defined.

Lemma ocr_results_keep_invariant_witness :
  exists doc w',
    Demo.run 0.5 = (Ok doc, w') /\
    Forall (fun entry => ocr_invariant (ocr_result_field entry)) (detections doc).
Proof.
  eexists; eexists. split; [vm_compute; reflexivity | ].
  eapply (ocr_results_keep_invariant nat Demo.image_open Demo.load_bubble_json
            Demo.PaddleOCR Demo.predict Demo.utc_now
            "page.png" "page.json" "chinese_cht" 0.5%float Demo.start).
  vm_compute. reflexivity.
Defined.

Lemma entries_copy_detection_fields_witness :
  exists doc w',
    Demo.run 0.5 = (Ok doc, w') /\
    Forall2 (fun det entry =>
               py_getitem det "label" = Ok (label entry) /\
               py_getitem det "label_id" = Ok (label_id entry) /\
               py_getitem det "confidence" = Ok (det_confidence entry) /\
               py_getitem det "bbox" = Ok (bbox entry))
            [Demo.free_text; Demo.bubble_text; Demo.sliver] (detections doc).
Proof.
  eexists; eexists. split; [vm_compute; reflexivity | ].
  eapply (entries_copy_detection_fields nat Demo.image_open
            Demo.load_bubble_json Demo.PaddleOCR Demo.predict Demo.utc_now
            "page.png" "page.json" "chinese_cht" 0.5%float Demo.start).
  - vm_compute. reflexivity.
  - reflexivity.
  - reflexivity.
  - reflexivity.
Defined.

Lemma unreadable_document_aborts_witness :
  exists e,
    fst (Demo.run_on Demo.no_bbox) = Raise e /\
    fst (Demo.run_main Demo.no_bbox) = 1 /\
    files (snd (Demo.run_main Demo.no_bbox)) = [] /\
    last (stdout (snd (Demo.run_main Demo.no_bbox))) Banner = RunError e.
Proof.
  exact (proj1 (unreadable_document_aborts nat Demo.image_open
                  (fun _ => Ok Demo.no_bbox) Demo.PaddleOCR Demo.predict
                  Demo.utc_now Demo.json_dump "page.png" "page.json"
                  "page-ocr.json" "chinese_cht" 0.5%float Demo.start Demo.page
                  Demo.no_bbox 0%nat eq_refl eq_refl eq_refl) eq_refl).
Defined.

(** C6 (as stated) fails: a recognizer that returns a page record with no
    line gets a result with no error and no lines. *)
Lemma silent_page_has_no_error :
  fst (run_ocr_on_crop Demo.silent 0%nat Demo.free_text_crop Demo.start)
  = Ok ({| text_lines := []; full_text := ""; avg_confidence := 0%float;
           error := None |}, 1%nat).
Proof. vm_compute. reflexivity. Qed.

(** C7 (as stated) fails: on scores 0.12344, 0.12344 and 0.12349 the lines
    store 0.1234, 0.1234 and 0.1235, whose mean rounds to 0.1234, while
    [avg_confidence], the rounded mean of the scores themselves, is
    0.1235. *)
Lemma avg_confidence_is_not_mean_of_stored :
  exists r,
    fst (run_ocr_on_crop Demo.fine_scores 0%nat Demo.free_text_crop Demo.start)
    = Ok (r, 1%nat) /\
    error r = None /\
    map confidence (text_lines r) = [0.1234; 0.1234; 0.1235]%float /\
    avg_confidence r = 0.1235%float /\
    round4 (mean (map confidence (text_lines r))) = 0.1234%float /\
    avg_confidence r <> round4 (mean (map confidence (text_lines r))).
Proof.
  eexists. split; [vm_compute; reflexivity | ].
  repeat split; try (vm_compute; reflexivity).
  intros H. apply (f_equal Prim2SF) in H. vm_compute in H. discriminate H.
Qed.

(** C9 (as stated) fails: a document without a [detections] list, and one
    whose records have no [label_id], are not refused: [process_image]
    returns a document with no detection, and [main], on a file system that
    takes the file, exits with status 0 and writes that document. *)
Lemma malformed_documents_complete :
  (exists doc,
      fst (Demo.run_on Demo.no_detections) = Ok doc /\
      detections doc = [] /\
      fst (Demo.run_main Demo.no_detections) = 0 /\
      files (snd (Demo.run_main Demo.no_detections))
      = [("page-ocr.json", Complete doc)]) /\
  (exists doc,
      fst (Demo.run_on Demo.no_label_ids) = Ok doc /\
      detections doc = [] /\
      fst (Demo.run_main Demo.no_label_ids) = 0 /\
      files (snd (Demo.run_main Demo.no_label_ids))
      = [("page-ocr.json", Complete doc)]).
Proof.
  split; eexists; (split; [vm_compute; reflexivity | ]);
    repeat split; vm_compute; reflexivity.
Qed.

(** The run of the pipeline on the demonstration page: three text regions,
    the second of which makes the recognizer fail and the third of which is
    too narrow, give three entries. *)
Example demo_run_entries :
  detections_of (fst (Demo.run 0.5))
  = Ok [ {| label := PyStr "text_free"; label_id := PyInt 2;
            det_confidence := PyFloat 0.9;
            bbox := Demo.bbox_of (PyFloat 10.4) (PyFloat 10.25)
                      (PyFloat 200.5) (PyFloat 50.75);
            ocr_result_field :=
              {| text_lines := [ {| text := "A"; confidence := 0.9 |};
                                 {| text := "B"; confidence := 0.7 |};
                                 {| text := "C"; confidence := 0.5 |} ];
                 full_text := "A" ++ newline ++ "B" ++ newline ++ "C";
                 avg_confidence := 0.7;
                 error := None |} |};
         {| label := PyStr "text_bubble"; label_id := PyInt 1;
            det_confidence := PyFloat 0.8;
            bbox := Demo.bbox_of (PyFloat 310.5) (PyFloat 320.5)
                      (PyFloat 480.5) (PyFloat 470.5);
            ocr_result_field := ocr_failed "out of memory" |};
         {| label := PyStr "text_bubble"; label_id := PyInt 1;
            det_confidence := PyFloat 0.7;
            bbox := Demo.sliver_box;
            ocr_result_field := invalid_crop_region |} ]%string.
Proof. vm_compute. reflexivity. Qed.

(** A box of exactly 20 by 20 pixels in the lower right corner of the page
    is cropped; one pixel narrower, it is rejected. *)
Example crop_20_by_20 :
  crop_region Demo.page
    (Demo.bbox_of (PyFloat 780.9) (PyFloat 580.2) (PyInt 800) (PyInt 640))
  = Ok (Some {| crop_source := Demo.page; crop_x1 := 780; crop_y1 := 580;
                crop_x2 := 800; crop_y2 := 600 |}) /\
  crop_region Demo.page
    (Demo.bbox_of (PyInt 781) (PyFloat 580.2) (PyInt 800) (PyInt 640))
  = Ok None.
Proof. split; vm_compute; reflexivity. Qed.

Example demo_run_calls :
  ocr_calls (snd (Demo.run 0.5))
  = [ Demo.free_text_crop;
      {| crop_source := Demo.page;
         crop_x1 := 310; crop_y1 := 320; crop_x2 := 480; crop_y2 := 470 |} ].
Proof. vm_compute. reflexivity. Qed.

(* ================================================================= *)
(** * Further properties of [crop_region] *)

Lemma clamp_bbox_bounds (img : image) (b : pyval) (x1 y1 x2 y2 : Z) :
  clamp_bbox img b = Ok (x1, y1, x2, y2) ->
  0 <= x1 /\ 0 <= y1 /\ x2 <= width img /\ y2 <= height img.
Proof.
  unfold clamp_bbox, rbind.
  destruct (py_getitem b "x1") as [v1 | ]; [ | discriminate].
  destruct (py_getitem b "y1") as [v2 | ]; [ | discriminate].
  destruct (py_getitem b "x2") as [v3 | ]; [ | discriminate].
  destruct (py_getitem b "y2") as [v4 | ]; [ | discriminate].
  destruct (py_int v1) as [z1 | ]; [ | discriminate].
  destruct (py_int v2) as [z2 | ]; [ | discriminate].
  destruct (py_int v3) as [z3 | ]; [ | discriminate].
  destruct (py_int v4) as [z4 | ]; [ | discriminate].
  intros H. inversion H; subst. lia.
Qed.

(** A crop, when there is one, lies inside the page it is cut from and is at
    least 20 pixels wide and 20 pixels high; a page smaller than that in
    either direction gives no crop at all. *)
Theorem crop_inside_image (img : image) (b : pyval) (c : crop) :
  crop_region img b = Ok (Some c) ->
  crop_source c = img /\
  0 <= crop_x1 c /\ crop_x1 c + 20 <= crop_x2 c /\ crop_x2 c <= width img /\
  0 <= crop_y1 c /\ crop_y1 c + 20 <= crop_y2 c /\ crop_y2 c <= height img /\
  20 <= width img /\ 20 <= height img.
Proof.
  intros Hcrop.
  destruct (clamp_bbox img b) as [[[[x1 y1] x2] y2] | e] eqn:Hclamp.
  - pose proof (clamp_bbox_bounds img b x1 y1 x2 y2 Hclamp) as Hb.
    rewrite (crop_region_clamped img b x1 y1 x2 y2 Hclamp) in Hcrop.
    pose proof (rejected_spec x1 y1 x2 y2) as Hrej.
    destruct (rejected x1 y1 x2 y2); [discriminate | ].
    inversion Hcrop; subst; simpl.
    assert (Hno : ~ (x2 <= x1 \/ y2 <= y1 \/ x2 - x1 < 20 \/ y2 - y1 < 20)).
    { intros H. apply Hrej in H. discriminate. }
    repeat split; lia.
  - unfold crop_region in Hcrop. rewrite Hclamp in Hcrop. discriminate.
Qed.

Lemma crop_inside_image_witness :
  0 <= 10 /\ 10 + 20 <= 200 /\ 200 <= width Demo.page.
Proof.
  destruct (crop_inside_image Demo.page
              (Demo.bbox_of (PyFloat 10.4) (PyFloat 10.25) (PyFloat 200.5)
                 (PyFloat 50.75))
              Demo.free_text_crop eq_refl)
    as (_ & H1 & H2 & H3 & _).
  exact (conj H1 (conj H2 H3)).
Defined.

(** All four coordinate keys are read before any is cast: a box that lacks
    one makes [crop_region] raise the [KeyError] of the first key missing, in
    the order x1, y1, x2, y2, whatever the values of the others. *)
Theorem crop_region_missing_key (img : image) (d : list (string * pyval))
    (k : string) :
  first_missing d = Some k ->
  crop_region img (PyDict d) = Raise (KeyError k).
Proof.
  unfold first_missing, has_key, crop_region, clamp_bbox, rbind. simpl.
  destruct (dict_lookup "x1" d); simpl;
    [ | intros H; inversion H; reflexivity].
  destruct (dict_lookup "y1" d); simpl;
    [ | intros H; inversion H; reflexivity].
  destruct (dict_lookup "x2" d); simpl;
    [ | intros H; inversion H; reflexivity].
  destruct (dict_lookup "y2" d); simpl;
    [ discriminate | intros H; inversion H; reflexivity].
Qed.

Lemma crop_region_missing_key_witness :
  crop_region Demo.page
    (PyDict [("x1", PyStr "left"); ("y1", PyInt 0); ("y2", PyInt 50)])
  = Raise (KeyError "x2").
Proof.
  apply (crop_region_missing_key Demo.page
           [("x1", PyStr "left"); ("y1", PyInt 0); ("y2", PyInt 50)] "x2").
  reflexivity.
Defined.




(* ================================================================= *)
(** * Further properties of [filter_text_regions] *)

Lemma filter_all {A : Type} (f : A -> bool) (l : list A) :
  Forall (fun x => f x = true) l -> filter f l = l.
Proof.
  induction 1 as [ | x l Hx _ IH]; simpl; [reflexivity | ].
  rewrite Hx, IH. reflexivity.
Qed.

(** A comprehension that returns has met records only, and has kept those
    with a text label. *)
Lemma text_regions_of_returns (items regions : list pyval) :
  text_regions_of items = Ok regions ->
  Forall (fun det => is_dict det = true) items /\
  regions = filter text_label items.
Proof.
  revert regions. induction items as [ | det rest IH]; intros regions H.
  - simpl in H. inversion H. split; [constructor | reflexivity].
  - simpl in H. unfold rbind in H.
    destruct det as [ | | | | | | d]; simpl in H; try discriminate.
    destruct (text_regions_of rest) as [kept | e]; [ | discriminate].
    destruct (IH kept eq_refl) as (Hrest & Hkept).
    split; [constructor; [reflexivity | assumption] | ].
    simpl. inversion H. subst kept.
    destruct (dict_lookup "label_id" d); reflexivity.
Qed.

Lemma text_regions_of_raises (items : list pyval) :
  Exists (fun det => is_dict det = false) items ->
  text_regions_of items = Raise AttributeError.
Proof.
  induction items as [ | det rest IH]; intros Hex; [inversion Hex | ].
  simpl. unfold rbind.
  destruct det as [ | | | | | | d]; simpl; try reflexivity.
  rewrite IH; [reflexivity | ].
  inversion Hex as [? ? Hbad | ? ? Hlater]; subst;
    [discriminate | assumption].
Qed.

(** Whatever the document, the regions the filter returns are records whose
    [label_id] equals 1 or 2, they are the items of that kind among the ones
    iterated, in order, and filtering a document made of them changes
    nothing. *)
Theorem filter_keeps_text_records (bubble_data : pyval)
    (regions : list pyval) :
  filter_text_regions bubble_data = Ok regions ->
  Forall (fun det => is_dict det = true /\ text_label det = true) regions /\
  (exists detections items,
      py_get bubble_data "detections" (PyList []) = Ok detections /\
      py_iter detections = Ok items /\
      regions = filter text_label items) /\
  filter_text_regions (PyDict [("detections", PyList regions)]) = Ok regions.
Proof.
  unfold filter_text_regions at 1. unfold rbind.
  destruct (py_get bubble_data "detections" (PyList [])) as [dets | e] eqn:Hget;
    [ | discriminate].
  destruct (py_iter dets) as [items | e] eqn:Hiter; [ | discriminate].
  intros H. destruct (text_regions_of_returns items regions H) as (Hd & Heq).
  assert (Hall : Forall (fun det => is_dict det = true /\ text_label det = true)
                   regions).
  { subst regions. apply Forall_forall. intros det Hin.
    apply filter_In in Hin. destruct Hin as (Hin & Hl).
    rewrite Forall_forall in Hd. auto. }
  split; [exact Hall | split].
  - exists dets, items. auto.
  - unfold filter_text_regions. simpl.
    rewrite text_regions_of_records.
    + f_equal. apply filter_all.
      eapply Forall_impl; [ | exact Hall]. intros det (_ & Hl). exact Hl.
    + eapply Forall_impl; [ | exact Hall]. intros det (Hdict & _). exact Hdict.
Qed.

Lemma filter_keeps_text_records_witness :
  Forall (fun det => is_dict det = true /\ text_label det = true)
    [Demo.free_text; Demo.bubble_text; Demo.sliver].
Proof.
  exact (proj1 (filter_keeps_text_records Demo.bubbles
                  [Demo.free_text; Demo.bubble_text; Demo.sliver] eq_refl)).
Defined.

Lemma nodup_not_nil (l : list string) : l <> [] -> nodup string_dec l <> [].
Proof.
  destruct l as [ | k rest]; [congruence | ]. intros _ Hnil.
  assert (Hin : In k (nodup string_dec (k :: rest))).
  { apply nodup_In. left. reflexivity. }
  rewrite Hnil in Hin. inversion Hin.
Qed.

(** How the filter fails: a document that is not an object, or a
    [detections] list with an item that is not an object, or a non-empty
    string or object as [detections], raise [AttributeError] (no [get]
    method); a [detections] that is [null], a boolean or a number raises
    [TypeError] (not iterable). *)
Theorem filter_text_regions_failures (bubble_data : pyval) :
  (is_dict bubble_data = false ->
   filter_text_regions bubble_data = Raise AttributeError) /\
  (forall d v,
      bubble_data = PyDict d -> dict_lookup "detections" d = Some v ->
      match v with
      | PyNone | PyBool _ | PyInt _ | PyFloat _ =>
          filter_text_regions bubble_data = Raise TypeError
      | PyList items =>
          Exists (fun det => is_dict det = false) items ->
          filter_text_regions bubble_data = Raise AttributeError
      | PyStr s =>
          s <> EmptyString ->
          filter_text_regions bubble_data = Raise AttributeError
      | PyDict d' =>
          d' <> [] -> filter_text_regions bubble_data = Raise AttributeError
      end).
Proof.
  split.
  - destruct bubble_data; simpl; intros H; (discriminate || reflexivity).
  - intros d v Hd Hv. subst bubble_data. unfold filter_text_regions. simpl.
    rewrite Hv. simpl.
    destruct v as [ | b | z | f | s | items | d']; try reflexivity.
    + destruct s as [ | c s]; [congruence | ]. intros _. reflexivity.
    + intros Hex. apply text_regions_of_raises. exact Hex.
    + intros Hne.
      pose proof (nodup_not_nil (map fst d')) as Hnd.
      destruct (nodup string_dec (map fst d')) as [ | k ks] eqn:Hks.
      * exfalso. apply Hnd; [ | reflexivity].
        destruct d'; [congruence | discriminate].
      * unfold py_iter, rbind. rewrite Hks. reflexivity.
Qed.

(* ================================================================= *)
(** * Further properties of [run_ocr_on_crop] *)

Lemma map_fst_combine {A B : Type} (l1 : list A) (l2 : list B) :
  map fst (combine l1 l2) = firstn (List.length l2) l1.
Proof.
  revert l2. induction l1 as [ | a l1 IH]; intros [ | b l2]; simpl;
    try reflexivity.
  rewrite IH. reflexivity.
Qed.

Lemma map_snd_combine {A B : Type} (l1 : list A) (l2 : list B) :
  map snd (combine l1 l2) = firstn (List.length l1) l2.
Proof.
  revert l2. induction l1 as [ | a l1 IH]; intros [ | b l2]; simpl;
    try reflexivity.
  rewrite IH. reflexivity.
Qed.

(** Texts and scores of unequal number are zipped up to the shorter list:
    the result has as many lines as the shorter one has items, with the
    first texts and the first scores (rounded) in order, and [full_text]
    joins exactly those texts; page results after the first are not read. *)
Theorem lines_stop_at_shorter_list (texts : list string) (scores : list float)
    (rest : list ocr_page) :
  let r := ocr_result_of (Returns (Page (Some texts) (Some scores) :: rest)) in
  List.length (text_lines r)
  = Nat.min (List.length texts) (List.length scores) /\
  map text (text_lines r) = firstn (List.length scores) texts /\
  map confidence (text_lines r)
  = map round4 (firstn (List.length texts) scores) /\
  full_text r = String.concat newline (firstn (List.length scores) texts) /\
  r = ocr_result_of (Returns [Page (Some texts) (Some scores)]).
Proof.
  cbv zeta. rewrite !ocr_result_of_page. cbv zeta. simpl.
  unfold lines_of. repeat split.
  - rewrite length_map, length_combine. reflexivity.
  - rewrite map_map. simpl. apply map_fst_combine.
  - rewrite map_map. simpl.
    rewrite <- map_snd_combine, map_map. reflexivity.
  - rewrite map_map. simpl. rewrite <- map_fst_combine. reflexivity.
Qed.

(* ================================================================= *)
(** * Further properties of [process_image] and [main] *)

Section Runs.

Variable OcrState : Type.
Variable image_open : string -> result image.
Variable load_bubble_json : string -> result pyval.
Variable PaddleOCR : string -> result OcrState.
Variable predict : OcrState -> crop -> predict_outcome * OcrState.
Variable utc_now : string.

Local Abbreviation run_image :=
  (process_image image_open load_bubble_json PaddleOCR predict utc_now).

Ltac run_monad :=
  unfold bind, lift, print, ret, called_with, write_file, rbind; simpl.

(** [process_image] writes no file, however it ends. *)
Lemma process_image_files (image_path bubble_json_path lang : string)
    (thr : float) (w : world) :
  files (snd (run_image image_path bubble_json_path lang thr w)) = files w.
Proof.
  destruct (image_open image_path) as [img | e] eqn:Himg;
    [ | unfold process_image; run_monad; rewrite Himg; reflexivity].
  destruct (load_bubble_json bubble_json_path) as [data | e] eqn:Hdata;
    [ | unfold process_image; run_monad; rewrite Himg; simpl;
        rewrite Hdata; reflexivity].
  destruct (filter_text_regions data) as [regions | e] eqn:Hfilter;
    [ | unfold process_image; run_monad; rewrite Himg; simpl;
        rewrite Hdata; simpl; rewrite Hfilter; reflexivity].
  destruct (PaddleOCR lang) as [ocr | e] eqn:Hocr;
    [ | unfold process_image; run_monad; rewrite Himg; simpl;
        rewrite Hdata; simpl; rewrite Hfilter; simpl; rewrite Hocr;
        reflexivity].
  rewrite (process_image_loop OcrState image_open load_bubble_json PaddleOCR
             predict utc_now _ _ _ thr w _ _ _ _ Himg Hdata Hfilter Hocr).
  pose proof (process_regions_files OcrState predict img thr
                (List.length regions) regions 1%nat ocr []
                (loop_start image_path bubble_json_path lang
                   (List.length regions) w)) as Hf.
  destruct (process_regions predict img thr _ _ _ _ _ _) as [[results | e] w1];
    simpl in *; exact Hf.
Qed.

(** When the image cannot be opened, the detection file cannot be loaded or
    filtered, or the recognizer cannot be created, [process_image] raises
    that very exception without having called the recognizer. *)
Theorem setup_failure_stops_before_ocr
    (image_path bubble_json_path lang : string) (thr : float) (w : world)
    (e : exn) :
  (image_open image_path = Raise e \/
   exists img,
     image_open image_path = Ok img /\
     (load_bubble_json bubble_json_path = Raise e \/
      exists bubble_data,
        load_bubble_json bubble_json_path = Ok bubble_data /\
        (filter_text_regions bubble_data = Raise e \/
         exists regions,
           filter_text_regions bubble_data = Ok regions /\
           PaddleOCR lang = Raise e))) ->
  fst (run_image image_path bubble_json_path lang thr w) = Raise e /\
  ocr_calls (snd (run_image image_path bubble_json_path lang thr w))
  = ocr_calls w.
Proof.
  unfold process_image. run_monad.
  intros [Himg | (img & Himg & [Hdata | (data & Hdata &
            [Hfilter | (regions & Hfilter & Hocr)])])];
    rewrite Himg; simpl; auto;
    rewrite Hdata; simpl; auto;
    rewrite Hfilter; simpl; auto;
    rewrite Hocr; simpl; auto.
Qed.

(* ----------------------------------------------------------------- *)
(** ** A run that is aborted *)

(** The loop body on a detection it cannot read: it raises the exception of
    the first read that fails, after having called the recognizer if the
    crop could still be cut. *)
Lemma process_region_error (img : image) (thr : float) (total idx : nat)
    (det : pyval) (ocr : OcrState) (w : world) (e : exn) :
  region_error img det = Some e ->
  exists w',
    process_region predict img thr total idx det ocr w = (Raise e, w') /\
    ocr_calls w'
    = ocr_calls w ++ match crop_of img det with
                     | Some c => [c]
                     | None => []
                     end.
Proof.
  unfold region_error, process_region, crop_of. run_monad.
  destruct (py_getitem det "bbox") as [b | e0]; simpl;
    [ | intros H; inversion H; subst; eexists; split;
        [reflexivity | simpl; rewrite app_nil_r; reflexivity]].
  destruct (crop_region img b) as [[c | ] | e0]; simpl;
    [ | | intros H; inversion H; subst; eexists; split;
          [reflexivity | simpl; rewrite app_nil_r; reflexivity]].
  - unfold run_ocr_on_crop. run_monad.
    destruct (predict ocr c) as [o ocr']. simpl.
    destruct (py_getitem det "label") as [lb | e0]; simpl;
      [ | intros H; inversion H; subst; eexists; split; reflexivity].
    destruct (py_getitem det "label_id") as [li | e0]; simpl;
      [ | intros H; inversion H; subst; eexists; split; reflexivity].
    destruct (py_getitem det "confidence") as [cf | e0]; simpl;
      [discriminate | intros H; inversion H; subst; eexists; split; reflexivity].
  - destruct (py_getitem det "label") as [lb | e0]; simpl;
      [ | intros H; inversion H; subst; eexists; split;
          [reflexivity | simpl; rewrite app_nil_r; reflexivity]].
    destruct (py_getitem det "label_id") as [li | e0]; simpl;
      [ | intros H; inversion H; subst; eexists; split;
          [reflexivity | simpl; rewrite app_nil_r; reflexivity]].
    destruct (py_getitem det "confidence") as [cf | e0]; simpl;
      [discriminate | intros H; inversion H; subst; eexists; split;
          [reflexivity | simpl; rewrite app_nil_r; reflexivity]].
Qed.

Lemma crops_of_app (img : image) (l1 l2 : list pyval) :
  crops_of img (l1 ++ l2) = crops_of img l1 ++ crops_of img l2.
Proof.
  induction l1 as [ | det rest IH]; simpl; [reflexivity | ].
  destruct (crop_of img det); simpl; rewrite IH; reflexivity.
Qed.

Lemma process_regions_error (img : image) (thr : float) (total : nat)
    (good : list pyval) (bad : pyval) (rest : list pyval) (e : exn) :
  Forall (fun det => region_ok img det = true) good ->
  region_error img bad = Some e ->
  forall (idx : nat) (ocr : OcrState) (results : list result_entry) (w : world),
  exists w',
    process_regions predict img thr total (good ++ bad :: rest) idx ocr
      results w = (Raise e, w') /\
    ocr_calls w'
    = ocr_calls w ++ crops_of img good
      ++ match crop_of img bad with
         | Some c => [c]
         | None => []
         end.
Proof.
  intros Hgood Hbad.
  induction Hgood as [ | det good Hdet _ IH]; intros idx ocr results w.
  - simpl app. simpl process_regions. unfold bind.
    destruct (process_region_error img thr total idx bad ocr w e Hbad)
      as (w' & Hstep & Hcalls).
    rewrite Hstep. exists w'. split; [reflexivity | exact Hcalls].
  - simpl app. simpl process_regions. unfold bind.
    destruct (process_region_ok OcrState predict img thr total idx det ocr w
                Hdet)
      as (entry & ocr' & w1 & Hstep & _ & Hcalls & _).
    rewrite Hstep. simpl fst; simpl snd.
    destruct (IH (S idx) ocr' (results ++ [entry]) w1) as (w' & Hloop & Hc).
    exists w'. split; [exact Hloop | ].
    rewrite Hc, Hcalls. simpl.
    destruct (crop_of img det); simpl; rewrite <- !app_assoc; reflexivity.
Qed.

(** A run is not checked in advance: when the first text region the loop
    cannot read comes after regions it can, [process_image] raises the
    exception of that region after the recognizer has been run on every crop
    before it, and on its own crop when what is missing is the label or the
    confidence; the results of those calls are lost. *)
Theorem abort_after_partial_ocr (image_path bubble_json_path lang : string)
    (thr : float) (w : world) (img : image) (bubble_data : pyval)
    (good : list pyval) (bad : pyval) (rest : list pyval) (ocr : OcrState)
    (e : exn) :
  image_open image_path = Ok img ->
  load_bubble_json bubble_json_path = Ok bubble_data ->
  filter_text_regions bubble_data = Ok (good ++ bad :: rest) ->
  PaddleOCR lang = Ok ocr ->
  Forall (fun det => region_ok img det = true) good ->
  region_error img bad = Some e ->
  fst (run_image image_path bubble_json_path lang thr w) = Raise e /\
  ocr_calls (snd (run_image image_path bubble_json_path lang thr w))
  = ocr_calls w ++ crops_of img good
    ++ match crop_of img bad with
       | Some c => [c]
       | None => []
       end.
Proof.
  intros Himg Hdata Hfilter Hocr Hgood Hbad.
  rewrite (process_image_loop OcrState image_open load_bubble_json PaddleOCR
             predict utc_now _ _ _ thr w _ _ _ _ Himg Hdata Hfilter Hocr).
  destruct (process_regions_error img thr
              (List.length (good ++ bad :: rest)) good bad rest e Hgood Hbad
              1%nat ocr []
              (loop_start image_path bubble_json_path lang
                 (List.length (good ++ bad :: rest)) w))
    as (w' & Hloop & Hcalls).
  rewrite Hloop. simpl. split; [reflexivity | exact Hcalls].
Qed.

(* ----------------------------------------------------------------- *)
(** ** What a complete run prints *)

Lemma process_region_prints (img : image) (thr : float) (total idx : nat)
    (det : pyval) (ocr : OcrState) (w : world) :
  region_ok img det = true ->
  exists entry ocr' w' status,
    process_region predict img thr total idx det ocr w = (Ok (entry, ocr'), w') /\
    stdout w' = stdout w ++ [ProcessingRegion idx total; status] /\
    match crop_region img (bbox entry) with
    | Ok None => status = SkippedInvalidCrop
    | _ => status = report thr (ocr_result_field entry)
    end.
Proof.
  unfold region_ok, process_region. run_monad.
  destruct (py_getitem det "bbox") as [b | e] eqn:Hb; simpl; [ | discriminate].
  destruct (crop_region img b) as [oc | e] eqn:Hc; simpl; [ | discriminate].
  destruct (py_getitem det "label") as [lb | e]; simpl; [ | discriminate].
  destruct (py_getitem det "label_id") as [li | e]; simpl; [ | discriminate].
  destruct (py_getitem det "confidence") as [cf | e]; simpl; [ | discriminate].
  intros _.
  destruct oc as [c | ].
  - unfold run_ocr_on_crop. run_monad.
    destruct (predict ocr c) as [o ocr']. simpl.
    eexists; eexists; eexists; eexists. split; [reflexivity | ]. simpl.
    rewrite Hc, <- app_assoc. split; reflexivity.
  - eexists; eexists; eexists; eexists. split; [reflexivity | ]. simpl.
    rewrite Hc, <- app_assoc. split; reflexivity.
Qed.

Lemma process_regions_prints (img : image) (thr : float) (total : nat)
    (regions : list pyval) :
  Forall (fun det => region_ok img det = true) regions ->
  forall (idx : nat) (ocr : OcrState) (results : list result_entry) (w : world),
  exists entries w' statuses,
    process_regions predict img thr total regions idx ocr results w
    = (Ok (results ++ entries), w') /\
    List.length entries = List.length regions /\
    stdout w' = stdout w ++ progress total idx statuses /\
    Forall2 (fun entry status =>
               match crop_region img (bbox entry) with
               | Ok None => status = SkippedInvalidCrop
               | _ => status = report thr (ocr_result_field entry)
               end) entries statuses.
Proof.
  induction 1 as [ | det rest Hdet _ IH]; intros idx ocr results w.
  - exists [], w, []. simpl. unfold ret. rewrite !app_nil_r. auto.
  - destruct (process_region_prints img thr total idx det ocr w Hdet)
      as (entry & ocr' & w1 & status & Hstep & Hout & Hstatus).
    destruct (IH (S idx) ocr' (results ++ [entry]) w1)
      as (entries & w2 & statuses & Hloop & Hlen & Hout2 & Hall).
    exists (entry :: entries), w2, (status :: statuses).
    simpl process_regions. unfold bind. rewrite Hstep. simpl fst; simpl snd.
    rewrite Hloop, <- app_assoc. simpl.
    repeat split.
    + congruence.
    + rewrite Hout2, Hout, <- app_assoc. reflexivity.
    + constructor; assumption.
Qed.

(** A complete run prints the four opening lines, the third giving the
    number of entries of the document, and then for each entry in turn its
    position line, counted from 1, and one status line: the skip notice
    when the crop was rejected, and otherwise the line chosen from the
    entry's result and the threshold. *)
Theorem progress_lines (image_path bubble_json_path lang : string)
    (thr : float) (w w' : world) (doc : document) (img : image) :
  run_image image_path bubble_json_path lang thr w = (Ok doc, w') ->
  image_open image_path = Ok img ->
  exists statuses,
    stdout w'
    = stdout w
      ++ preamble image_path bubble_json_path lang
           (List.length (detections doc))
      ++ progress (List.length (detections doc)) 1 statuses /\
    Forall2 (fun entry status =>
               match crop_region img (bbox entry) with
               | Ok None => status = SkippedInvalidCrop
               | _ => status = report thr (ocr_result_field entry)
               end) (detections doc) statuses.
Proof.
  intros Hrun Himg.
  destruct (process_image_returns OcrState image_open load_bubble_json
              PaddleOCR predict utc_now _ _ _ _ _ _ _ Hrun)
    as (img' & data & regions & ocr & Himg' & Hdata & Hfilter & Hocr).
  assert (img' = img) by congruence. subst img'.
  rewrite (process_image_loop OcrState image_open load_bubble_json PaddleOCR
             predict utc_now _ _ _ thr w _ _ _ _ Himg Hdata Hfilter Hocr)
    in Hrun.
  destruct (process_regions predict img thr (List.length regions) regions
              1%nat ocr []
              (loop_start image_path bubble_json_path lang
                 (List.length regions) w)) as [[results | e] w1] eqn:Hloop;
    [ | discriminate].
  pose proof (process_regions_returns OcrState predict _ _ _ _ _ _ _ _ _ _
                Hloop) as Hall.
  destruct (process_regions_prints img thr (List.length regions) regions Hall
              1%nat ocr []
              (loop_start image_path bubble_json_path lang
                 (List.length regions) w))
    as (entries & w2 & statuses & Hloop' & Hlen & Hout & Hst).
  rewrite Hloop in Hloop'. inversion Hloop'; subst results w2.
  inversion Hrun; subst doc w'. simpl.
  exists statuses. split; [ | exact Hst].
  rewrite Hout, Hlen. unfold loop_start, preamble. simpl.
  rewrite <- !app_assoc. reflexivity.
Qed.

(* ----------------------------------------------------------------- *)
(** ** The summary of [main] *)

Lemma with_text_bound (entries : list result_entry) :
  Forall (fun entry => ocr_invariant (ocr_result_field entry)) entries ->
  (with_text entries + List.length (filter has_error entries)
   <= List.length entries)%nat.
Proof.
  unfold with_text.
  induction 1 as [ | entry rest (Herr & _) _ IH]; simpl; [lia | ].
  unfold has_error at 1.
  destruct (error (ocr_result_field entry)) as [msg | ] eqn:He.
  - destruct Herr as (Hnil & _); [congruence | ].
    rewrite Hnil. simpl. lia.
  - destruct (text_lines (ocr_result_field entry)); simpl; lia.
Qed.

(** In the document of a complete run, a region whose result carries an
    error is never among the regions counted as having text: the count
    [main] prints and the number of entries with an error together do not
    exceed the number of entries. *)
Theorem summary_counts (image_path bubble_json_path lang : string)
    (thr : float) (w w' : world) (doc : document) :
  run_image image_path bubble_json_path lang thr w = (Ok doc, w') ->
  (with_text (detections doc)
   + List.length (filter has_error (detections doc))
   <= List.length (detections doc))%nat.
Proof.
  intros Hrun.
  destruct (process_image_returns OcrState image_open load_bubble_json
              PaddleOCR predict utc_now _ _ _ _ _ _ _ Hrun)
    as (img & data & regions & ocr & Himg & Hdata & Hfilter & _).
  destruct (process_image_entries OcrState image_open load_bubble_json
              PaddleOCR predict utc_now _ _ _ _ _ _ _ _ _ _
              Hrun Himg Hdata Hfilter) as (Hentries & _).
  apply with_text_bound.
  apply (Forall2_Forall_right (entry_of predict img) (fun _ => True)
           (fun entry => ocr_invariant (ocr_result_field entry))
           regions (detections doc)).
  - intros det entry _ H.
    eapply (entry_of_invariant OcrState predict). exact H.
  - exact Hentries.
  - apply Forall_forall. intros; exact I.
Qed.

(* ----------------------------------------------------------------- *)
(** ** The files [main] leaves *)

Variable json_dump : string -> document -> write_outcome.

Local Abbreviation run_main :=
  (main image_open load_bubble_json PaddleOCR predict utc_now json_dump).

(** [main] touches no file but the one at [output_path], and that one at
    most once: it exits with status 0 only when [process_image] returned a
    document and the write returned, having written that document in full,
    its last line being the summary; in every other case it exits with
    status 1, its last line reporting the exception, of [process_image] or
    of the write, and the files are as they were unless [json.dump] itself
    raised, which leaves a partial file at [output_path]. *)
Theorem main_writes_at_most_one_file
    (image_path bubble_json_path output_path lang : string) (thr : float)
    (w : world) :
  (fst (run_main image_path bubble_json_path output_path lang thr w) = 0 <->
   exists doc,
     fst (run_image image_path bubble_json_path lang thr (snd (print Banner w)))
     = Ok doc /\
     json_dump output_path doc = Written) /\
  (fst (run_main image_path bubble_json_path output_path lang thr w) = 0 ->
   exists doc,
     fst (run_image image_path bubble_json_path lang thr (snd (print Banner w)))
     = Ok doc /\
     files (snd (run_main image_path bubble_json_path output_path lang thr w))
     = files w ++ [(output_path, Complete doc)] /\
     last (stdout (snd (run_main image_path bubble_json_path output_path
                          lang thr w))) Banner
     = Success (List.length (detections doc)) (with_text (detections doc))) /\
  (fst (run_main image_path bubble_json_path output_path lang thr w) <> 0 ->
   fst (run_main image_path bubble_json_path output_path lang thr w) = 1 /\
   exists e,
     last (stdout (snd (run_main image_path bubble_json_path output_path
                          lang thr w))) Banner
     = RunError e /\
     ((fst (run_image image_path bubble_json_path lang thr
              (snd (print Banner w))) = Raise e /\
       files (snd (run_main image_path bubble_json_path output_path lang
                     thr w))
       = files w)
      \/
      (exists doc,
          fst (run_image image_path bubble_json_path lang thr
                 (snd (print Banner w))) = Ok doc /\
          ((json_dump output_path doc = OpenRaises e /\
            files (snd (run_main image_path bubble_json_path output_path lang
                          thr w))
            = files w)
           \/
           (json_dump output_path doc = DumpRaises e /\
            files (snd (run_main image_path bubble_json_path output_path lang
                          thr w))
            = files w ++ [(output_path, Truncated doc)]))))).
Proof.
  pose proof (process_image_files image_path bubble_json_path lang thr
                (snd (print Banner w))) as Hf.
  destruct (run_image image_path bubble_json_path lang thr (snd (print Banner w)))
    as [[doc | e] w1] eqn:Hrun; simpl in Hf |- *.
  - pose proof (main_returns OcrState image_open load_bubble_json PaddleOCR
                  predict utc_now json_dump image_path bubble_json_path
                  output_path lang thr w w1 doc Hrun) as Hmain.
    destruct (json_dump output_path doc) as [ | e | e] eqn:Hdump;
      destruct Hmain as (Hcode & Hfiles & Hlast); rewrite Hcode, Hfiles, Hlast, Hf.
    + split; [ | split].
      * split; [intros _; exists doc; auto | reflexivity].
      * intros _. exists doc. auto.
      * intros H. contradiction H. reflexivity.
    + split; [ | split].
      * split; [discriminate | ].
        intros (doc' & Hdoc & Hw). inversion Hdoc; subst doc'. congruence.
      * discriminate.
      * intros _. split; [reflexivity | ]. exists e. split; [reflexivity | ].
        right. exists doc. split; [reflexivity | ]. left. auto.
    + split; [ | split].
      * split; [discriminate | ].
        intros (doc' & Hdoc & Hw). inversion Hdoc; subst doc'. congruence.
      * discriminate.
      * intros _. split; [reflexivity | ]. exists e. split; [reflexivity | ].
        right. exists doc. split; [reflexivity | ]. right. auto.
  - destruct (main_raises OcrState image_open load_bubble_json PaddleOCR
                predict utc_now json_dump image_path bubble_json_path
                output_path lang thr w w1 e Hrun) as (Hcode & Hfiles & Hlast).
    rewrite Hcode, Hfiles, Hlast, Hf.
    split; [ | split].
    + split; [discriminate | intros (doc & Hdoc & _); discriminate Hdoc].
    + discriminate.
    + intros _. split; [reflexivity | ]. exists e. split; [reflexivity | ].
      left. auto.
Qed.

End Runs.

(** [main] on the demonstration page when the output file cannot be
    written: the three regions are recognized, and [main] exits with status
    1, leaving no file when the directory is missing and a partial file when
    the disk fills up. *)
Example demo_unwritable_output :
  exists doc,
    fst (Demo.run 0.5) = Ok doc /\
    main Demo.image_open Demo.load_bubble_json Demo.PaddleOCR Demo.predict
      Demo.utc_now Demo.json_dump
      "page.png" "page.json" "out/page-ocr.json" "chinese_cht" 0.5 Demo.start
    = (0, {| ocr_calls := ocr_calls (snd (Demo.run 0.5));
             stdout := (Banner :: stdout (snd (Demo.run 0.5)))
                       ++ [SavingResults "out/page-ocr.json"; Success 3 1];
             files := [("out/page-ocr.json", Complete doc)] |}) /\
    main Demo.image_open Demo.load_bubble_json Demo.PaddleOCR Demo.predict
      Demo.utc_now Demo.no_directory
      "page.png" "page.json" "out/page-ocr.json" "chinese_cht" 0.5 Demo.start
    = (1, {| ocr_calls := ocr_calls (snd (Demo.run 0.5));
             stdout := (Banner :: stdout (snd (Demo.run 0.5)))
                       ++ [SavingResults "out/page-ocr.json";
                           RunError (Failure "No such file or directory")];
             files := [] |}) /\
    main Demo.image_open Demo.load_bubble_json Demo.PaddleOCR Demo.predict
      Demo.utc_now Demo.disk_full
      "page.png" "page.json" "out/page-ocr.json" "chinese_cht" 0.5 Demo.start
    = (1, {| ocr_calls := ocr_calls (snd (Demo.run 0.5));
             stdout := (Banner :: stdout (snd (Demo.run 0.5)))
                       ++ [SavingResults "out/page-ocr.json";
                           RunError (Failure "No space left on device")];
             files := [("out/page-ocr.json", Truncated doc)] |}).
Proof.
  eexists. split; [vm_compute; reflexivity | ].
  repeat split; vm_compute; reflexivity.
Qed.

Lemma abort_after_partial_ocr_witness :
  fst (process_image Demo.image_open (fun _ => Ok Demo.unlabelled)
         Demo.PaddleOCR Demo.predict Demo.utc_now
         "page.png" "page.json" "chinese_cht" 0.5 Demo.start)
  = Raise (KeyError "label") /\
  ocr_calls (snd (process_image Demo.image_open (fun _ => Ok Demo.unlabelled)
                    Demo.PaddleOCR Demo.predict Demo.utc_now
                    "page.png" "page.json" "chinese_cht" 0.5 Demo.start))
  = [Demo.free_text_crop; Demo.free_text_crop].
Proof.
  apply (abort_after_partial_ocr nat Demo.image_open
           (fun _ => Ok Demo.unlabelled) Demo.PaddleOCR Demo.predict
           Demo.utc_now "page.png" "page.json" "chinese_cht" 0.5%float
           Demo.start Demo.page Demo.unlabelled [Demo.free_text]
           Demo.free_text_without_label [Demo.sliver] 0%nat
           (KeyError "label")).
  - reflexivity.
  - reflexivity.
  - reflexivity.
  - reflexivity.
  - repeat constructor.
  - reflexivity.
Defined.

Lemma setup_failure_stops_before_ocr_witness :
  fst (process_image Demo.image_open
         (fun _ => Raise (Failure "No such file: page.json"))
         Demo.PaddleOCR Demo.predict Demo.utc_now
         "page.png" "page.json" "chinese_cht" 0.5 Demo.start)
  = Raise (Failure "No such file: page.json").
Proof.
  refine (proj1 (setup_failure_stops_before_ocr nat Demo.image_open
                   (fun _ => Raise (Failure "No such file: page.json"))
                   Demo.PaddleOCR Demo.predict Demo.utc_now
                   "page.png" "page.json" "chinese_cht" 0.5%float Demo.start
                   (Failure "No such file: page.json") _)).
  right. exists Demo.page. split; [reflexivity | left; reflexivity].
Defined.

Lemma progress_lines_witness :
  exists doc w',
    Demo.run 0.5 = (Ok doc, w') /\
    exists statuses,
      stdout w'
      = preamble "page.png" "page.json" "chinese_cht" 3
        ++ progress 3 1 statuses.
Proof.
  eexists; eexists. split; [vm_compute; reflexivity | ].
  edestruct (progress_lines nat Demo.image_open Demo.load_bubble_json
               Demo.PaddleOCR Demo.predict Demo.utc_now
               "page.png" "page.json" "chinese_cht" 0.5%float Demo.start)
    as (statuses & Hout & _);
    [vm_compute; reflexivity | reflexivity | ].
  exists statuses. exact Hout.
Defined.

Lemma summary_counts_witness :
  exists doc w',
    Demo.run 0.5 = (Ok doc, w') /\
    (with_text (detections doc)
     + List.length (filter has_error (detections doc))
     <= List.length (detections doc))%nat.
Proof.
  eexists; eexists. split; [vm_compute; reflexivity | ].
  eapply (summary_counts nat Demo.image_open Demo.load_bubble_json
            Demo.PaddleOCR Demo.predict Demo.utc_now
            "page.png" "page.json" "chinese_cht" 0.5%float Demo.start).
  vm_compute. reflexivity.
Defined.

(* ================================================================= *)
(** * The output of a run as the input of another *)

Lemma filter_text_regions_labels (bubble_data : pyval) (regions : list pyval) :
  filter_text_regions bubble_data = Ok regions ->
  Forall (fun det => text_label det = true) regions.
Proof.
  unfold filter_text_regions, rbind.
  destruct (py_get bubble_data "detections" (PyList [])) as [dets | e];
    [ | discriminate].
  destruct (py_iter dets) as [items | e]; [ | discriminate].
  intros H. destruct (text_regions_of_returns items regions H) as (_ & Heq).
  subst regions. apply Forall_forall. intros det Hin.
  apply filter_In in Hin. tauto.
Qed.

Lemma Forall2_map_left {A B C : Type} (f : A -> B) (R : B -> C -> Prop)
    (l : list A) (l' : list C) :
  Forall2 R (map f l) l' -> Forall2 (fun a c => R (f a) c) l l'.
Proof.
  revert l'. induction l as [ | a l IH]; intros l' H; inversion H; subst;
    constructor; auto.
Qed.

Section SecondPass.

Variable OcrState : Type.
Variable image_open : string -> result image.
Variable load_bubble_json : string -> result pyval.
Variable PaddleOCR : string -> result OcrState.
Variable predict : OcrState -> crop -> predict_outcome * OcrState.
Variable utc_now : string.

(** An entry of the output, read as a detection, is a text record the loop
    can read. *)
Lemma entry_is_text_region (img : image) (det : pyval) (entry : result_entry) :
  text_label det = true ->
  entry_of predict img det entry ->
  is_dict (py_of_entry entry) = true /\
  text_label (py_of_entry entry) = true /\
  region_ok img (py_of_entry entry) = true.
Proof.
  intros Hlabel (Hl & Hi & Hc & Hb & Hcrop).
  split; [reflexivity | split].
  - simpl. eapply text_label_id; eassumption.
  - unfold region_ok, rbind. simpl.
    destruct Hcrop as [(H & _) | (c & ocr & H & _)]; rewrite H; reflexivity.
Qed.

(** The document a run returns is itself a detection document for the same
    page: every entry passes the text filter, the loop can read every entry,
    and a second run that loads it returns a document whose entries carry
    the same label, label id, confidence and box, in the same order. *)
Theorem ocr_output_is_a_detection_document
    (image_path bubble_json_path lang : string) (thr : float) (w w' : world)
    (doc : document) (img : image) :
  process_image image_open load_bubble_json PaddleOCR predict utc_now
    image_path bubble_json_path lang thr w = (Ok doc, w') ->
  image_open image_path = Ok img ->
  filter_text_regions (py_of_document doc)
  = Ok (map py_of_entry (detections doc)) /\
  forall (output_path : string) (thr2 : float) (w2 : world),
  exists doc2 w2',
    process_image image_open (fun _ => Ok (py_of_document doc)) PaddleOCR
      predict utc_now image_path output_path lang thr2 w2 = (Ok doc2, w2') /\
    Forall2 (fun entry entry2 =>
               label entry2 = label entry /\
               label_id entry2 = label_id entry /\
               det_confidence entry2 = det_confidence entry /\
               bbox entry2 = bbox entry)
            (detections doc) (detections doc2).
Proof.
  intros Hrun Himg.
  destruct (process_image_returns OcrState image_open load_bubble_json
              PaddleOCR predict utc_now _ _ _ _ _ _ _ Hrun)
    as (img' & data & regions & ocr & Himg' & Hdata & Hfilter & Hocr).
  assert (img' = img) by congruence. subst img'.
  destruct (process_image_entries OcrState image_open load_bubble_json
              PaddleOCR predict utc_now _ _ _ _ _ _ _ _ _ _
              Hrun Himg Hdata Hfilter) as (Hentries & _).
  pose proof (filter_text_regions_labels data regions Hfilter) as Hlabels.
  assert (Hall : Forall (fun entry =>
                           is_dict (py_of_entry entry) = true /\
                           text_label (py_of_entry entry) = true /\
                           region_ok img (py_of_entry entry) = true)
                   (detections doc)).
  { apply (Forall2_Forall_right (entry_of predict img)
             (fun det => text_label det = true) _ regions (detections doc)).
    - intros det entry Hl He. eapply entry_is_text_region; eassumption.
    - exact Hentries.
    - exact Hlabels. }
  assert (Hfilter2 : filter_text_regions (py_of_document doc)
                     = Ok (map py_of_entry (detections doc))).
  { unfold filter_text_regions, py_of_document. simpl.
    rewrite text_regions_of_records.
    - f_equal. apply filter_all. apply Forall_map.
      eapply Forall_impl; [ | exact Hall]. intros entry (_ & H & _). exact H.
    - apply Forall_map.
      eapply Forall_impl; [ | exact Hall]. intros entry (H & _). exact H. }
  split; [exact Hfilter2 | ].
  intros output_path thr2 w2.
  destruct (process_image_ok OcrState image_open
              (fun _ => Ok (py_of_document doc)) PaddleOCR predict utc_now
              image_path output_path lang thr2 w2 img (py_of_document doc)
              (map py_of_entry (detections doc)) ocr
              Himg eq_refl Hfilter2 Hocr)
    as (doc2 & w2' & Hrun2 & Hentries2 & _).
  { apply Forall_map.
    eapply Forall_impl; [ | exact Hall]. intros entry (_ & _ & H). exact H. }
  exists doc2, w2'. split; [exact Hrun2 | ].
  apply Forall2_map_left in Hentries2.
  eapply Forall2_impl; [ | exact Hentries2].
  intros entry entry2 (Hl & Hi & Hc & Hb & _). simpl in Hl, Hi, Hc, Hb.
  inversion Hl; inversion Hi; inversion Hc; inversion Hb. auto.
Qed.

End SecondPass.

Lemma ocr_output_is_a_detection_document_witness :
  exists doc w',
    Demo.run 0.5 = (Ok doc, w') /\
    filter_text_regions (py_of_document doc)
    = Ok (map py_of_entry (detections doc)).
Proof.
  eexists; eexists. split; [vm_compute; reflexivity | ].
  eapply (ocr_output_is_a_detection_document nat Demo.image_open
            Demo.load_bubble_json Demo.PaddleOCR Demo.predict Demo.utc_now
            "page.png" "page.json" "chinese_cht" 0.5%float Demo.start).
  - vm_compute. reflexivity.
  - reflexivity.
Defined.

(* ================================================================= *)
(** * The detector's adapter *)

Lemma pos_to_uint_not_nil (p : positive) : Pos.to_uint p <> Decimal.Nil.
Proof.
  intros H. pose proof (DecimalPos.Unsigned.of_to p) as E.
  rewrite H in E. discriminate E.
Qed.

Lemma str_of_int_injective (a b : Z) : str_of_int a = str_of_int b -> a = b.
Proof.
  unfold str_of_int. intros H. apply DecimalZ.to_int_inj.
  assert (Hproper : forall z, Z.to_int z <> Decimal.Pos Decimal.Nil /\
                              Z.to_int z <> Decimal.Neg Decimal.Nil).
  { intros z. destruct z; simpl; split; try discriminate;
      intros E; inversion E as [E']; apply (pos_to_uint_not_nil _ E'). }
  destruct (Hproper a) as (A1 & A2). destruct (Hproper b) as (B1 & B2).
  pose proof (NilZero.isi _ A1 A2) as Ea.
  pose proof (NilZero.isi _ B1 B2) as Eb.
  rewrite H in Ea. congruence.
Qed.

Lemma label_of_cases (l : Z) :
  (l = 0 /\ label_of l = "bubble") \/
  (l = 1 /\ label_of l = "text_bubble") \/
  (l = 2 /\ label_of l = "text_free") \/
  (l <> 0 /\ l <> 1 /\ l <> 2 /\
   label_of l = ("unknown_" ++ str_of_int l)%string).
Proof.
  unfold label_of. simpl.
  destruct (Z.eqb_spec l 0); [subst; auto | ].
  destruct (Z.eqb_spec l 1); [subst; auto | ].
  destruct (Z.eqb_spec l 2); [subst; auto | ].
  right; right; right. auto.
Qed.

(** The label kept with a detection determines its label id: two ids with
    the same label are equal, an id outside the mapping being kept in its
    label as [unknown_<id>]; the label is [text_bubble] or [text_free]
    exactly for the ids 1 and 2 that the OCR filter looks for. *)
Theorem label_of_injective (a b : Z) :
  (label_of a = label_of b -> a = b) /\
  (label_of a = "text_bubble" <-> a = 1) /\
  (label_of a = "text_free" <-> a = 2).
Proof.
  split; [ | split].
  - destruct (label_of_cases a) as [(Ha & Ea) | [(Ha & Ea) | [(Ha & Ea) |
                                    (Ha0 & Ha1 & Ha2 & Ea)]]];
      destruct (label_of_cases b) as [(Hb & Eb) | [(Hb & Eb) | [(Hb & Eb) |
                                      (Hb0 & Hb1 & Hb2 & Eb)]]];
      rewrite Ea, Eb; intros H; try congruence; try discriminate H.
    simpl in H. inversion H as [H']. apply str_of_int_injective. exact H'.
  - destruct (label_of_cases a) as [(Ha & Ea) | [(Ha & Ea) | [(Ha & Ea) |
                                    (Ha0 & Ha1 & Ha2 & Ea)]]];
      rewrite Ea; split; intros H; try congruence; try discriminate H.
  - destruct (label_of_cases a) as [(Ha & Ea) | [(Ha & Ea) | [(Ha & Ea) |
                                    (Ha0 & Ha1 & Ha2 & Ea)]]];
      rewrite Ea; split; intros H; try congruence; try discriminate H.
Qed.

(** The loop of [detect_regions], when it returns: one record per triple of
    the zip, appended in order. *)
Lemma build_detections_returns (scores : list float) :
  forall (labels : list Z) (boxes : list (list float))
         (acc dets : list pyval),
  build_detections scores labels boxes acc = Ok dets ->
  exists new,
    dets = acc ++ new /\
    Forall2 (fun t det =>
               exists x1 y1 x2 y2,
                 snd (snd t) = [x1; y1; x2; y2] /\
                 det = detection_record (fst t) (fst (snd t)) x1 y1 x2 y2)
            (combine scores (combine labels boxes)) new.
Proof.
  induction scores as [ | score scores IH]; intros labels boxes acc dets H.
  - simpl in H. inversion H. exists []. rewrite app_nil_r. split; constructor.
  - destruct labels as [ | label labels];
      [simpl in H; inversion H; exists []; rewrite app_nil_r;
       split; constructor | ].
    destruct boxes as [ | box boxes];
      [simpl in H; inversion H; exists []; rewrite app_nil_r;
       split; constructor | ].
    simpl in H.
    destruct box as [ | x1 [ | y1 [ | x2 [ | y2 [ | extra box]]]]];
      try discriminate.
    destruct (IH labels boxes _ dets H) as (new & Hdets & Hall).
    exists (detection_record score label x1 y1 x2 y2 :: new).
    split; [rewrite Hdets, <- app_assoc; reflexivity | ].
    simpl. constructor; [ | exact Hall].
    exists x1, y1, x2, y2. split; reflexivity.
Qed.

Lemma region_ok_detection_record (img : image) (score : float) (l : Z)
    (x1 y1 x2 y2 : float) :
  region_ok img (detection_record score l x1 y1 x2 y2)
  = forallb is_number
      [PyFloat (round2 x1); PyFloat (round2 y1);
       PyFloat (round2 x2); PyFloat (round2 y2)].
Proof.
  unfold region_ok, detection_record, crop_region, clamp_bbox, rbind. simpl.
  unfold int_of_float.
  destruct (Prim2SF (round2 x1)); simpl; try reflexivity;
    destruct (Prim2SF (round2 y1)); simpl; try reflexivity;
    destruct (Prim2SF (round2 x2)); simpl; try reflexivity;
    destruct (Prim2SF (round2 y2)); simpl; try reflexivity;
    repeat match goal with
      | |- context [Z.leb ?a ?b] => destruct (Z.leb a b); simpl
      | |- context [Z.ltb ?a ?b] => destruct (Z.ltb a b); simpl
      end; reflexivity.
Qed.

Section DetectorProperties.

Variable load_processor : string -> result unit.
Variable load_model : string -> result unit.
Variable image_open : string -> result image.
Variable infer : image -> float -> result detector_output.

Local Abbreviation detect :=
  (detect_regions load_processor load_model image_open infer).

(** A detection document [detect_regions] returns holds one record per
    (score, label, box) triple of the detector's output, as many as the
    shortest of the three sequences has items, in their order; a record
    carries the label name of its id, the id, the score rounded to four
    decimals and the four coordinates rounded to two. *)
Theorem detect_regions_records (image_path : string) (threshold : float)
    (doc : pyval) :
  detect image_path threshold = Ok doc ->
  exists img out dets,
    image_open image_path = Ok img /\
    infer img threshold = Ok out /\
    py_getitem doc "detections" = Ok (PyList dets) /\
    List.length dets
    = Nat.min (List.length (scores out))
        (Nat.min (List.length (labels out)) (List.length (boxes out))) /\
    Forall2 (fun t det =>
               exists x1 y1 x2 y2,
                 snd (snd t) = [x1; y1; x2; y2] /\
                 det = detection_record (fst t) (fst (snd t)) x1 y1 x2 y2)
            (triples out) dets.
Proof.
  unfold detect_regions, rbind.
  destruct (load_processor MODEL_ID); [ | discriminate].
  destruct (load_model MODEL_ID); [ | discriminate].
  destruct (image_open image_path) as [img | e] eqn:Himg; [ | discriminate].
  destruct (infer img threshold) as [out | e] eqn:Hinfer; [ | discriminate].
  destruct (build_detections (scores out) (labels out) (boxes out) [])
    as [dets | e] eqn:Hbuild; [ | discriminate].
  intros H. inversion H; subst doc.
  destruct (build_detections_returns _ _ _ _ _ Hbuild) as (new & Hdets & Hall).
  simpl in Hdets. subst new.
  exists img, out, dets.
  split; [reflexivity | split; [exact Hinfer | split; [reflexivity | split]]].
  - apply Forall2_length in Hall.
    rewrite <- Hall, !length_combine. reflexivity.
  - exact Hall.
Qed.

(** A detection document [detect_regions] returns is accepted by the filter
    of the OCR run, which keeps the records with label id 1 or 2, in order;
    each of them is labelled [text_bubble] or [text_free], and the OCR loop
    can read it exactly when its four rounded coordinates are finite. *)
Theorem extract_then_filter (image_path : string) (threshold : float)
    (img : image) (doc : pyval) :
  detect image_path threshold = Ok doc ->
  exists dets,
    py_getitem doc "detections" = Ok (PyList dets) /\
    filter_text_regions doc = Ok (filter text_label dets) /\
    Forall (fun det =>
              exists score l x1 y1 x2 y2,
                det = detection_record score l x1 y1 x2 y2 /\
                (l = 1 \/ l = 2) /\
                (py_getitem det "label" = Ok (PyStr "text_bubble") \/
                 py_getitem det "label" = Ok (PyStr "text_free")) /\
                region_ok img det
                = forallb is_number
                    [PyFloat (round2 x1); PyFloat (round2 y1);
                     PyFloat (round2 x2); PyFloat (round2 y2)])
           (filter text_label dets).
Proof.
  unfold detect_regions, rbind.
  destruct (load_processor MODEL_ID); [ | discriminate].
  destruct (load_model MODEL_ID); [ | discriminate].
  destruct (image_open image_path) as [img' | e]; [ | discriminate].
  destruct (infer img' threshold) as [out | e]; [ | discriminate].
  destruct (build_detections (scores out) (labels out) (boxes out) [])
    as [dets | e] eqn:Hbuild; [ | discriminate].
  intros H. inversion H; subst doc.
  destruct (build_detections_returns _ _ _ _ _ Hbuild) as (new & Hdets & Hall).
  simpl in Hdets. subst new.
  assert (Hrecords : Forall (fun det =>
                               exists score l x1 y1 x2 y2,
                                 det = detection_record score l x1 y1 x2 y2)
                       dets).
  { apply (Forall2_Forall_right _ (fun _ => True) _ _ _
             (fun t det _ H => match H with
                               | ex_intro _ x1 (ex_intro _ y1 (ex_intro _ x2
                                   (ex_intro _ y2 (conj _ E)))) =>
                                   ex_intro _ (fst t) (ex_intro _ (fst (snd t))
                                     (ex_intro _ x1 (ex_intro _ y1
                                        (ex_intro _ x2 (ex_intro _ y2 E)))))
                               end) Hall).
    apply Forall_forall. intros; exact I. }
  exists dets. split; [reflexivity | split].
  - unfold filter_text_regions. simpl. apply text_regions_of_records.
    eapply Forall_impl; [ | exact Hrecords].
    intros det (score & l & x1 & y1 & x2 & y2 & E). subst det. reflexivity.
  - apply Forall_forall. intros det Hin. apply filter_In in Hin.
    destruct Hin as (Hin & Hlabel).
    rewrite Forall_forall in Hrecords.
    destruct (Hrecords det Hin) as (score & l & x1 & y1 & x2 & y2 & E).
    subst det. exists score, l, x1, y1, x2, y2.
    assert (Hl : l = 1 \/ l = 2).
    { simpl in Hlabel. apply in_1_2_int. exact Hlabel. }
    split; [reflexivity | split; [exact Hl | split]].
    + destruct Hl; subst l; [left | right]; reflexivity.
    + apply region_ok_detection_record.
Qed.

End DetectorProperties.

Lemma detect_regions_records_witness :
  exists doc,
    DemoDetector.document = Ok doc /\
    exists dets,
      py_getitem doc "detections" = Ok (PyList dets) /\
      List.length dets = 3%nat.
Proof.
  eexists. split; [vm_compute; reflexivity | ].
  edestruct (detect_regions_records DemoDetector.load DemoDetector.load
               DemoDetector.image_open DemoDetector.infer "page.png" 0.3%float)
    as (img & out & dets & Himg & Hout & Hget & Hlen & _);
    [vm_compute; reflexivity | ].
  inversion Hout; subst out.
  exists dets. split; [exact Hget | exact Hlen].
Defined.

Lemma extract_then_filter_witness :
  exists doc,
    DemoDetector.document = Ok doc /\
    exists dets,
      py_getitem doc "detections" = Ok (PyList dets) /\
      filter_text_regions doc = Ok (filter text_label dets).
Proof.
  eexists. split; [vm_compute; reflexivity | ].
  edestruct (extract_then_filter DemoDetector.load DemoDetector.load
               DemoDetector.image_open DemoDetector.infer "page.png" 0.3%float
               Demo.page)
    as (dets & Hget & Hfilter & _);
    [vm_compute; reflexivity | ].
  exists dets. split; [exact Hget | exact Hfilter].
Defined.

(** The document the detector writes for the demonstration output. *)
Example demo_detections :
  DemoDetector.document
  = Ok (PyDict
          [("image_info", PyDict [("path", PyStr "page.png");
                                  ("width", PyInt 800); ("height", PyInt 600)]);
           ("detections",
            PyList
              [Demo.detection "text_free" 2 0.9877
                 (Demo.bbox_of (PyFloat 10.13) (PyFloat 10.25) (PyFloat 200.5)
                    (PyFloat 50.76));
               Demo.detection "bubble" 0 0.91
                 (Demo.bbox_of (PyFloat 300) (PyFloat 300) (PyFloat 500)
                    (PyFloat 500));
               Demo.detection "unknown_7" 7 0.5
                 (Demo.bbox_of (PyFloat 0) (PyFloat 0) (PyFloat 30.5)
                    (PyFloat 30.5))]);
           ("model", PyStr "ogkalu/comic-text-and-bubble-detector");
           ("threshold", PyFloat 0.3)]).
Proof. vm_compute. reflexivity. Qed.

(* ================================================================= *)
(** * The crops [save_cropped_regions] saves *)

Lemma cropped_slice_clamped (img : image) (det b li cf : pyval)
    (x1 y1 x2 y2 : Z) :
  py_getitem det "label_id" = Ok li ->
  py_getitem det "confidence" = Ok cf ->
  py_getitem det "bbox" = Ok b ->
  clamp_bbox img b = Ok (x1, y1, x2, y2) ->
  cropped_slice (width img) (height img) det
  = Ok (fst (slice_extent (height img) y1 y2),
        snd (slice_extent (height img) y1 y2),
        fst (slice_extent (width img) x1 x2),
        snd (slice_extent (width img) x1 x2)).
Proof.
  intros Hi Hc Hb. unfold clamp_bbox, cropped_slice, rbind.
  rewrite Hi, Hc, Hb.
  destruct (py_getitem b "x1") as [v1 | ]; [ | discriminate].
  destruct (py_getitem b "y1") as [v2 | ]; [ | discriminate].
  destruct (py_getitem b "x2") as [v3 | ]; [ | discriminate].
  destruct (py_getitem b "y2") as [v4 | ]; [ | discriminate].
  destruct (py_int v1) as [z1 | ]; [ | discriminate].
  destruct (py_int v2) as [z2 | ]; [ | discriminate].
  destruct (py_int v3) as [z3 | ]; [ | discriminate].
  destruct (py_int v4) as [z4 | ]; [ | discriminate].
  intros H. inversion H; subst. cbv zeta.
  destruct (slice_extent (height img) _ _), (slice_extent (width img) _ _).
  reflexivity.
Qed.

(** The slice of a sequence of length [n] between a start that is not
    negative and a stop that is at most [n]: a negative stop counts from the
    far end. *)
Lemma slice_extent_clamped (n a b : Z) :
  0 <= n -> 0 <= a -> b <= n ->
  slice_extent n a b
  = (Z.min a n, Z.max 0 ((if b <? 0 then n + b else b) - a)).
Proof.
  intros Hn Ha Hb. unfold slice_extent.
  destruct (Z.ltb_spec b 0); f_equal; lia.
Qed.

(** On a detection record, [save_cropped_regions] clamps the box as
    [crop_region] does and then slices the array (line 195) without any
    validity check.  The slice starts at row y1 and column x1 (at the edge
    when they lie beyond it) and has max(0, y2 - y1) rows and
    max(0, x2 - x1) columns, a negative y2 or x2 counting from the far edge
    as Python slices do.  When [crop_region] gives a crop, the slice is that
    rectangle.  When [crop_region] rejects the box and the clamped x2 and y2
    are not negative, the slice is under 20 pixels high or wide, and it has
    no pixel exactly when the clamped box is empty. *)
Theorem saved_crop_matches_ocr_crop (img : image) (det b li cf : pyval)
    (x1 y1 x2 y2 : Z) :
  0 <= width img -> 0 <= height img ->
  py_getitem det "label_id" = Ok li ->
  py_getitem det "confidence" = Ok cf ->
  py_getitem det "bbox" = Ok b ->
  clamp_bbox img b = Ok (x1, y1, x2, y2) ->
  exists row rows col cols,
    cropped_slice (width img) (height img) det = Ok (row, rows, col, cols) /\
    row = Z.min y1 (height img) /\
    col = Z.min x1 (width img) /\
    rows = Z.max 0 ((if y2 <? 0 then height img + y2 else y2) - y1) /\
    cols = Z.max 0 ((if x2 <? 0 then width img + x2 else x2) - x1) /\
    (forall c,
        crop_region img b = Ok (Some c) ->
        (row, rows, col, cols)
        = (crop_y1 c, crop_y2 c - crop_y1 c, crop_x1 c, crop_x2 c - crop_x1 c)) /\
    (crop_region img b = Ok None -> 0 <= x2 -> 0 <= y2 ->
     (rows < 20 \/ cols < 20) /\
     (rows = 0 \/ cols = 0 <-> x2 <= x1 \/ y2 <= y1)).
Proof.
  intros Hw Hh Hi Hc Hb Hclamp.
  pose proof (cropped_slice_clamped img det b li cf x1 y1 x2 y2
                Hi Hc Hb Hclamp) as Hslice.
  pose proof (clamp_bbox_bounds img b x1 y1 x2 y2 Hclamp) as Hbounds.
  rewrite (slice_extent_clamped (height img) y1 y2),
    (slice_extent_clamped (width img) x1 x2) in Hslice by lia.
  simpl in Hslice.
  eexists; eexists; eexists; eexists.
  split; [exact Hslice | ].
  split; [reflexivity | ]. split; [reflexivity | ].
  split; [reflexivity | ]. split; [reflexivity | ].
  rewrite (crop_region_clamped img b x1 y1 x2 y2 Hclamp).
  pose proof (rejected_spec x1 y1 x2 y2) as Hrej.
  destruct (rejected x1 y1 x2 y2).
  - split; [intros c H; discriminate H | ].
    intros _ Hx Hy.
    assert (Hyes : x2 <= x1 \/ y2 <= y1 \/ x2 - x1 < 20 \/ y2 - y1 < 20)
      by (apply Hrej; reflexivity).
    destruct (Z.ltb_spec y2 0); [lia | ].
    destruct (Z.ltb_spec x2 0); [lia | ].
    split; [lia | split; lia].
  - split; [ | intros H; discriminate H].
    intros c H. inversion H; subst c; simpl.
    assert (Hno : ~ (x2 <= x1 \/ y2 <= y1 \/ x2 - x1 < 20 \/ y2 - y1 < 20)).
    { intros Hyes. apply Hrej in Hyes. discriminate. }
    destruct (Z.ltb_spec y2 0); [lia | ].
    destruct (Z.ltb_spec x2 0); [lia | ].
    rewrite (Z.min_l y1 (height img)), (Z.min_l x1 (width img)) by lia.
    rewrite (Z.max_r 0 (y2 - y1)), (Z.max_r 0 (x2 - x1)) by lia.
    reflexivity.
Qed.

(** A text box to the left of the page: [crop_region] rejects it, and
    [save_cropped_regions] slices 790 of the 800 columns. *)
Lemma saved_crop_matches_ocr_crop_witness :
  crop_region Demo.page Demo.off_page_box = Ok None /\
  cropped_slice 800 600 Demo.off_page = Ok (10, 40, 0, 790).
Proof.
  split; [reflexivity | ].
  destruct (saved_crop_matches_ocr_crop Demo.page Demo.off_page
              Demo.off_page_box (PyInt 2) (PyFloat 0.6) 0 10 (-10) 50
              ltac:(simpl; lia) ltac:(simpl; lia)
              eq_refl eq_refl eq_refl eq_refl)
    as (row & rows & col & cols & Hslice & Hrow & Hcol & Hrows & Hcols & _).
  rewrite Hrow, Hcol, Hrows, Hcols in Hslice. exact Hslice.
Defined.

(** The slice of the free text box of the demonstration page is its crop. *)
Example demo_saved_crop :
  cropped_slice 800 600 Demo.free_text = Ok (10, 40, 10, 190).
Proof. vm_compute. reflexivity. Qed.
